(** * Embedded MQL in YAML: region detection, masking, lifecycle, formatting

    A shallow embedding of [src/embeddedMQL.ts].  JavaScript strings are
    sequences of UTF-16 code units; a code unit is an [N].  The module
    state of the TypeScript file (the document cache, the set of opened
    documents, the language id) is an explicit record threaded through a
    small state-and-output monad. *)

From Stdlib Require Import NArith ZArith String Ascii.
From stdpp Require Import base option list gmap strings.

Local Open Scope N_scope.

(** ** JavaScript strings *)

Abbreviation jsstring := (list N).

(** An ASCII literal as a sequence of code units. *)
Definition str (s : string) : jsstring :=
  List.map N_of_ascii (list_ascii_of_string s).

Definition LF : N := 10.
Definition CR : N := 13.

(** The class [\s] of a JavaScript regular expression, which is also the set
    that [String.prototype.trim] strips: WhiteSpace and LineTerminator. *)
Definition is_space (c : N) : bool :=
  ((9 <=? c) && (c <=? 13))
  || (c =? 32) || (c =? 160) || (c =? 0x1680)
  || ((0x2000 <=? c) && (c <=? 0x200a))
  || (c =? 0x2028) || (c =? 0x2029) || (c =? 0x202f)
  || (c =? 0x205f) || (c =? 0x3000) || (c =? 0xfeff).

(** [text.split("\n")]: never the empty array. *)
Fixpoint split_nl (s : jsstring) : list jsstring :=
  match s with
  | [] => [[]]
  | c :: s' =>
      if c =? LF then [] :: split_nl s'
      else match split_nl s' with
           | l :: ls => (c :: l) :: ls
           | [] => [[c]]
           end
  end.

(** A line holds no line feed. *)
Definition no_lf (l : jsstring) : Prop := LF ∉ l.

(** [lines.join("\n")]. *)
Fixpoint join_nl (ls : list jsstring) : jsstring :=
  match ls with
  | [] => []
  | l :: ls' =>
      match ls' with
      | [] => l
      | _ :: _ => l ++ LF :: join_nl ls'
      end
  end.

(** The longest whitespace prefix, [s.match(/^\s*/)[0]], and what follows. *)
Fixpoint leading_ws (s : jsstring) : jsstring :=
  match s with
  | c :: s' => if is_space c then c :: leading_ws s' else []
  | [] => []
  end.

Fixpoint skip_ws (s : jsstring) : jsstring :=
  match s with
  | c :: s' => if is_space c then skip_ws s' else s
  | [] => []
  end.

(** [s.trim()]. *)
Definition trim (s : jsstring) : jsstring :=
  rev (skip_ws (rev (skip_ws s))).

(** [s.trim()] is the empty string. *)
Definition is_blank (s : jsstring) : bool :=
  match trim s with
  | [] => true
  | _ :: _ => false
  end.

(** [contentLine.match(/^\s*/)?.[0].length ?? 0]. *)
Definition leadingSpaces (s : jsstring) : nat := length (leading_ws s).

(** ** The block scalar header

    The pattern is [^ ( \s* ) source: \s* [|>] [-+]? \s* $] (written here
    with spaces between its parts).

    No character that the pattern requires after a [\s*] is itself
    whitespace, so the backtracking matcher has one way to succeed: each
    [\s*] takes the whole whitespace run.  [header_match] returns the
    capture group [match[1]]. *)

Fixpoint strip_prefix (p s : jsstring) : option jsstring :=
  match p with
  | [] => Some s
  | a :: p' =>
      match s with
      | c :: s' => if a =? c then strip_prefix p' s' else None
      | [] => None
      end
  end.

(** The class [[|>]]: code units 124 and 62. *)
Definition is_block_indicator (c : N) : bool := (c =? 124) || (c =? 62).

(** The class [[-+]]: code units 45 and 43. *)
Definition is_chomping (c : N) : bool := (c =? 45) || (c =? 43).

Definition skip_chomping (s : jsstring) : jsstring :=
  match s with
  | c :: s' => if is_chomping c then s' else s
  | [] => []
  end.

Definition header_match (line : jsstring) : option jsstring :=
  match strip_prefix (str "source:") (skip_ws line) with
  | None => None
  | Some after_key =>
      match skip_ws after_key with
      | c :: after_ind =>
          if is_block_indicator c then
            if forallb is_space (skip_chomping after_ind)
            then Some (leading_ws line)
            else None
          else None
      | [] => None
      end
  end.

(** The pattern as a regular expression, and what it is for a string to
    match one as a whole; [header_match] is compared with this below. *)
Inductive regex :=
| Class (p : N → bool)
| Lit (s : jsstring)
| Cat (a b : regex)
| Star (a : regex)
| Opt (a : regex).

Inductive matches : regex → jsstring → Prop :=
| matches_class p c : p c = true → matches (Class p) [c]
| matches_lit s : matches (Lit s) s
| matches_cat a b s t :
    matches a s → matches b t → matches (Cat a b) (s ++ t)
| matches_star_nil a : matches (Star a) []
| matches_star_more a s t :
    matches a s → matches (Star a) t → matches (Star a) (s ++ t)
| matches_opt_none a : matches (Opt a) []
| matches_opt_some a s : matches a s → matches (Opt a) s.

Definition ws_star : regex := Star (Class is_space).

(** What follows the capture group: [source: \s* [|>] [-+]? \s*]. *)
Definition header_after_group : regex :=
  Cat (Lit (str "source:"))
    (Cat ws_star
       (Cat (Class is_block_indicator)
          (Cat (Opt (Class is_chomping)) ws_star))).

(** ** The editor's document model (the part of the [vscode] API used) *)

Module vscode.

Record TextDocument := {
  uri : string;
  languageId : string;
  version : Z;
  getText : jsstring;
}.

Record Position := { line : nat; character : nat }.

Record Range := { start : Position; end_ : Position }.

Record TextEdit := { range : Range; newText : jsstring }.

(** [a.isBefore(b)]. *)
Definition isBefore (a b : Position) : bool :=
  if (line a <? line b)%nat then true
  else if (line b <? line a)%nat then false
  else (character a <? character b)%nat.

(** [new vscode.Range(start, end)]: the constructor puts the two positions
    in order. *)
Definition mkRange (start_ end_ : Position) : Range :=
  if isBefore start_ end_ then {| start := start_; end_ := end_ |}
  else {| start := end_; end_ := start_ |}.

(** A line of the editor excludes its terminator, which is LF or CR LF. *)
Definition strip_cr (l : jsstring) : jsstring :=
  match rev l with
  | c :: l' => if c =? CR then rev l' else l
  | [] => l
  end.

(** [document.lineAt(line).text]; [None] stands for the error the editor
    throws for a line number outside the document. *)
Definition lineAt (document : TextDocument) (line : Z) : option jsstring :=
  if (line <? 0)%Z then None
  else strip_cr <$> (split_nl (getText document) !! Z.to_nat line).

End vscode.

(** ** Regions *)

Record EmbeddedMQLRegion := {
  startLine : nat;
  endLine : nat;
}.

(** The inner [for (let j = startLine; j < lines.length; j++)] loop of
    [detectMQLRegion]; [rest] is [lines] from index [j] on, [endLine] the
    loop's running variable.  The result is its value after the loop. *)
Fixpoint scan_block (contentIndent : nat) (rest : list jsstring)
    (j endLine : nat) : nat :=
  match rest with
  | [] => endLine
  | contentLine :: rest' =>
      if is_blank contentLine then scan_block contentIndent rest' (S j) j
      else if (leadingSpaces contentLine <? contentIndent)%nat then endLine
      else scan_block contentIndent rest' (S j) j
  end.

(** The outer [for (let i = 0; i < lines.length; i++)] loop; [rest] is
    [lines] from index [i] on and [len] is [lines.length]. *)
Fixpoint scan_lines (len : nat) (rest : list jsstring) (i : nat)
    : option EmbeddedMQLRegion :=
  match rest with
  | [] => None
  | line :: rest' =>
      match header_match line with
      | None => scan_lines len rest' (S i)
      | Some m1 =>
          let keyIndent := length m1 in
          let contentIndent := (keyIndent + 2)%nat in
          let startLine := (i + 1)%nat in
          if (len <=? startLine)%nat then None
          else
            let endLine := scan_block contentIndent rest' startLine startLine in
            if (startLine <=? endLine)%nat
            then Some {| startLine := startLine; endLine := endLine |}
            else scan_lines len rest' (S i)
      end
  end.

Definition detectMQLRegion (text : jsstring) : option EmbeddedMQLRegion :=
  let lines := split_nl text in
  scan_lines (length lines) lines 0.

(** The [for (lineNum = region.startLine; lineNum <= region.endLine &&
    lineNum < lines.length; lineNum++)] loop of [maskDocument]; [todo]
    bounds the iterations that remain. *)
Fixpoint restore_lines (region : EmbeddedMQLRegion) (lines : list jsstring)
    (todo lineNum : nat) (maskedLines : list jsstring) : list jsstring :=
  match todo with
  | O => maskedLines
  | S todo' =>
      if (lineNum <=? endLine region)%nat && (lineNum <? length lines)%nat
      then restore_lines region lines todo' (S lineNum)
             (<[lineNum := default [] (lines !! lineNum)]> maskedLines)
      else maskedLines
  end.

Definition maskDocument (text : jsstring) (region : option EmbeddedMQLRegion)
    : jsstring :=
  match region with
  | None => join_nl (List.map (fun _ => []) (split_nl text))
  | Some region =>
      let lines := split_nl text in
      let maskedLines := List.map (fun _ => []) lines in
      join_nl (restore_lines region lines
                 (S (endLine region) - startLine region)
                 (startLine region) maskedLines)
  end.


(** ** Module state and the calls made to the language service *)

Record EmbeddedMQLDocumentCache := {
  version : Z;
  region : option EmbeddedMQLRegion;
  maskedText : jsstring;
}.

Record ModuleState := {
  embeddedMQLDocumentCache : gmap string EmbeddedMQLDocumentCache;
  embeddedMQLOpenedYAMLDocuments : gset string;
  languageID : string;
}.

(** What reaches the service: the notifications the middleware sends itself
    with [client.sendNotification], and the standard flow it lets through
    with [next]. *)
Inductive ServiceCall :=
| sendNotification_didOpen (uri languageId : string) (version : Z)
    (text : jsstring)
| sendNotification_didChange (uri : string) (version : Z) (text : jsstring)
| next_didOpen (document : vscode.TextDocument)
| next_didChange (document : vscode.TextDocument)
| next_didClose (document : vscode.TextDocument).

(** A handler reads and updates the module state and appends to the calls
    made so far.  Handlers run one at a time (the host delivers events in
    order): an [await] inside a handler is not a point where another handler
    of this model runs, except in the formatting provider, which is split at
    its [await] below. *)
Definition M (A : Type) : Type :=
  ModuleState → A * ModuleState * list ServiceCall.

#[global] Instance M_ret : MRet M := λ A a st, (a, st, []).

#[global] Instance M_bind : MBind M := λ A B f m st,
  let '(a, st1, out1) := m st in
  let '(b, st2, out2) := f a st1 in
  (b, st2, out1 ++ out2).

Definition with_entry (uri : string) (cache : EmbeddedMQLDocumentCache)
    (st : ModuleState) : ModuleState :=
  {| embeddedMQLDocumentCache := <[uri := cache]> (embeddedMQLDocumentCache st);
     embeddedMQLOpenedYAMLDocuments := embeddedMQLOpenedYAMLDocuments st;
     languageID := languageID st |}.

Definition without_entry (uri : string) (st : ModuleState) : ModuleState :=
  {| embeddedMQLDocumentCache := delete uri (embeddedMQLDocumentCache st);
     embeddedMQLOpenedYAMLDocuments := embeddedMQLOpenedYAMLDocuments st;
     languageID := languageID st |}.

Definition with_opened (uri : string) (st : ModuleState) : ModuleState :=
  {| embeddedMQLDocumentCache := embeddedMQLDocumentCache st;
     embeddedMQLOpenedYAMLDocuments := {[uri]} ∪ embeddedMQLOpenedYAMLDocuments st;
     languageID := languageID st |}.

Definition without_opened (uri : string) (st : ModuleState) : ModuleState :=
  {| embeddedMQLDocumentCache := embeddedMQLDocumentCache st;
     embeddedMQLOpenedYAMLDocuments := embeddedMQLOpenedYAMLDocuments st ∖ {[uri]};
     languageID := languageID st |}.

Definition get_state : M ModuleState := λ st, (st, st, []).

Definition call (c : ServiceCall) : M () := λ st, ((), st, [c]).

(** [embeddedMQLDocumentCache.set(uri, cache)] and [.delete(uri)];
    [embeddedMQLOpenedYAMLDocuments.add(uri)] and [.delete(uri)]. *)
Definition cache_set (uri : string) (cache : EmbeddedMQLDocumentCache)
    : M () := λ st, ((), with_entry uri cache st, []).

Definition cache_delete (uri : string) : M () :=
  λ st, ((), without_entry uri st, []).

Definition opened_add (uri : string) : M () :=
  λ st, ((), with_opened uri st, []).

Definition opened_delete (uri : string) : M () :=
  λ st, ((), without_opened uri st, []).

Definition opened_has (uri : string) : M bool :=
  st ← get_state;
  mret (bool_decide (uri ∈ embeddedMQLOpenedYAMLDocuments st)).

Definition is_yaml (document : vscode.TextDocument) : bool :=
  String.eqb (vscode.languageId document) "yaml".

Definition isInsideEmbeddedMQLRegion (position : vscode.Position)
    (region : option EmbeddedMQLRegion) : bool :=
  match region with
  | None => false
  | Some region =>
      (startLine region <=? vscode.line position)%nat
      && (vscode.line position <=? endLine region)%nat
  end.

(** [cached && cached.version === document.version]. *)
Definition cache_hit (cached : option EmbeddedMQLDocumentCache)
    (document : vscode.TextDocument) : option EmbeddedMQLDocumentCache :=
  match cached with
  | Some cached =>
      if (version cached =? vscode.version document)%Z then Some cached
      else None
  | None => None
  end.

Definition getEmbeddedMQLCachedDocumentData (document : vscode.TextDocument)
    : M EmbeddedMQLDocumentCache :=
  let uri := vscode.uri document in
  st ← get_state;
  match cache_hit (embeddedMQLDocumentCache st !! uri) document with
  | Some cached => mret cached
  | None =>
      let text := vscode.getText document in
      let region := detectMQLRegion text in
      let maskedText := maskDocument text region in
      let cache := {| version := vscode.version document;
                      region := region;
                      maskedText := maskedText |} in
      cache_set uri cache;;
      mret cache
  end.

Definition isInsideValidMQLRegion (document : vscode.TextDocument)
    (position : option vscode.Position) : M bool :=
  if negb (is_yaml document) then mret true
  else
    cache ← getEmbeddedMQLCachedDocumentData document;
    match position with
    | None => mret (bool_decide (is_Some (region cache)))
    | Some position => mret (isInsideEmbeddedMQLRegion position (region cache))
    end.

(** ** The middleware *)

Definition didOpen (document : vscode.TextDocument) : M () :=
  if negb (is_yaml document) then call (next_didOpen document)
  else
    let uri := vscode.uri document in
    opened ← opened_has uri;
    if (opened : bool) then mret ()
    else
      cache ← getEmbeddedMQLCachedDocumentData document;
      match region cache with
      | None => mret ()
      | Some _ =>
          st ← get_state;
          call (sendNotification_didOpen uri (languageID st)
                  (vscode.version document) (maskedText cache));;
          opened_add uri
      end.

Definition didChange (document : vscode.TextDocument) : M () :=
  if negb (is_yaml document) then call (next_didChange document)
  else
    let uri := vscode.uri document in
    cache ← getEmbeddedMQLCachedDocumentData document;
    opened ← opened_has uri;
    if negb (bool_decide (is_Some (region cache))) && negb (opened : bool) then mret ()
    else if negb opened then
      match region cache with
      | Some _ =>
          st ← get_state;
          call (sendNotification_didOpen uri (languageID st)
                  (vscode.version document) (maskedText cache));;
          opened_add uri
      | None => mret ()
      end
    else
      call (sendNotification_didChange uri (vscode.version document)
              (maskedText cache)).

Definition didClose (document : vscode.TextDocument) : M () :=
  if is_yaml document then
    call (next_didClose document);;
    let uri := vscode.uri document in
    opened_delete uri;;
    cache_delete uri
  else call (next_didClose document).

(** ** The formatting provider *)

Inductive JSError :=
| TypeError      (* a property read on [undefined] *)
| IllegalLine.   (* [lineAt] outside the document *)

Inductive Outcome (A : Type) :=
| Returned (a : A)
| Threw (e : JSError).
Arguments Returned {A} a.
Arguments Threw {A} e.

(** [formattedLines.map(line => line.trim() is empty ? empty : blockIndent + line)
    .join("\n")]. *)
Definition reindent (blockIndent newText : jsstring) : jsstring :=
  join_nl (List.map (λ line, if is_blank line then [] else blockIndent ++ line)
             (split_nl newText)).

(** [provideDocumentFormattingEdits] from the point where [await next(...)]
    resumes with the service's answer [edits] ([None] is [undefined] or
    [null]).  [document] is the live editor object, read at that moment. *)
Definition provideDocumentFormattingEdits_resume
    (document : vscode.TextDocument) (edits : option (list vscode.TextEdit))
    : M (Outcome (option (list vscode.TextEdit))) :=
  match edits with
  | None => mret (Returned None)
  | Some [] => mret (Returned (Some []))
  | Some (edit :: more) =>
      if is_yaml document then
        cache ← getEmbeddedMQLCachedDocumentData document;
        match more with
        | _ :: _ => mret (Returned None)
        | [] =>
            match region cache with
            | None => mret (Threw TypeError)
            | Some region =>
                match vscode.lineAt document (Z.of_nat (startLine region) - 1) with
                | None => mret (Threw IllegalLine)
                | Some sourceLine =>
                    let sourceIndent := leading_ws sourceLine in
                    let blockIndent := sourceIndent ++ str "  " in
                    let reindentedText := reindent blockIndent (vscode.newText edit) in
                    let startPos :=
                      {| vscode.line := startLine region; vscode.character := 0 |} in
                    match vscode.lineAt document (Z.of_nat (endLine region)) with
                    | None => mret (Threw IllegalLine)
                    | Some endLineText =>
                        let endPos :=
                          {| vscode.line := endLine region;
                             vscode.character := length endLineText |} in
                        let mqlRegionRange := vscode.mkRange startPos endPos in
                        mret (Returned (Some
                          [{| vscode.range := mqlRegionRange;
                              vscode.newText := reindentedText |}]))
                    end
                end
            end
        end
      else mret (Returned (Some (edit :: more)))
  end.

(** The whole provider when nothing happens to the document or the module
    state while the request is with the service, whose answer is [edits]. *)
Definition provideDocumentFormattingEdits (document : vscode.TextDocument)
    (edits : option (list vscode.TextEdit))
    : M (Outcome (option (list vscode.TextEdit))) :=
  allowed ← isInsideValidMQLRegion document None;
  if negb (allowed : bool) then mret (Returned None)
  else provideDocumentFormattingEdits_resume document edits.

Definition setupEmbeddedMQL (mqlLanguageID : string) : M () := λ st,
  ((), {| embeddedMQLDocumentCache := embeddedMQLDocumentCache st;
          embeddedMQLOpenedYAMLDocuments := embeddedMQLOpenedYAMLDocuments st;
          languageID := mqlLanguageID |}, []).

Definition cleanupEmbeddedMQL : M () := λ st,
  ((), {| embeddedMQLDocumentCache := ∅;
          embeddedMQLOpenedYAMLDocuments := ∅;
          languageID := languageID st |}, []).

(** ** Host events *)

Inductive HostEvent :=
| HostOpen (document : vscode.TextDocument)
| HostChange (document : vscode.TextDocument)
| HostClose (document : vscode.TextDocument).

Definition handle (ev : HostEvent) : M () :=
  match ev with
  | HostOpen document => didOpen document
  | HostChange document => didChange document
  | HostClose document => didClose document
  end.

(** The state after a sequence of events, and what each event sent. *)
Fixpoint run (evs : list HostEvent) (st : ModuleState)
    : ModuleState * list (list ServiceCall) :=
  match evs with
  | [] => (st, [])
  | ev :: evs' =>
      let '(_, st1, out) := handle ev st in
      let '(st2, outs) := run evs' st1 in
      (st2, out :: outs)
  end.

Definition yaml_document (uri : string) (version : Z) (text : jsstring)
    : vscode.TextDocument :=
  {| vscode.uri := uri; vscode.languageId := "yaml";
     vscode.version := version; vscode.getText := text |}.

(** What a masked document holds at line [i] when the host has [line]
    there: the statement of the masker's contract, line by line. *)
Definition masked_line (region : option EmbeddedMQLRegion) (i : nat)
    (line : jsstring) : jsstring :=
  match region with
  | Some r =>
      if bool_decide (startLine r ≤ i ≤ endLine r)%nat then line else []
  | None => []
  end.

(** A line the inner loop of the detector keeps in the block: blank, or
    indented by at least [contentIndent]. *)
Definition in_block (contentIndent : nat) (l : jsstring) : bool :=
  is_blank l || negb (leadingSpaces l <? contentIndent)%nat.

(** A line at which the inner loop stops: not blank and indented less. *)
Definition ends_block (contentIndent : nat) (l : jsstring) : bool :=
  negb (is_blank l) && (leadingSpaces l <? contentIndent)%nat.

(** The entry [getEmbeddedMQLCachedDocumentData] computes on a miss. *)
Definition fresh_entry (document : vscode.TextDocument)
    : EmbeddedMQLDocumentCache :=
  {| version := vscode.version document;
     region := detectMQLRegion (vscode.getText document);
     maskedText := maskDocument (vscode.getText document)
                     (detectMQLRegion (vscode.getText document)) |}.

(** The region [getEmbeddedMQLCachedDocumentData] hands to its caller: the
    cached one when the entry has the document's version, else the one
    detected in the document's text. *)
Definition lookup_region (document : vscode.TextDocument) (st : ModuleState)
    : option EmbeddedMQLRegion :=
  region (getEmbeddedMQLCachedDocumentData document st).1.1.

(** [edits.length], with 0 for [undefined] and [null]. *)
Definition edit_count (edits : option (list vscode.TextEdit)) : nat :=
  match edits with
  | None => 0
  | Some es => length es
  end.

(** A formatting result that carries no edit: [undefined] or an empty array. *)
Definition no_edit (edits : option (list vscode.TextEdit)) : bool :=
  match edits with
  | None | Some [] => true
  | Some (_ :: _) => false
  end.

(** The layout claim C6 speaks of: the first header line, then content lines
    the last of which is not blank, then one or more blank lines, then
    [tail]. *)
Definition blanks_after_block (text : jsstring) (pre : list jsstring)
    (header m1 : jsstring) (content blanks tail : list jsstring) : Prop :=
  split_nl text = pre ++ header :: content ++ blanks ++ tail
  ∧ Forall (λ l, header_match l = None) pre
  ∧ header_match header = Some m1
  ∧ Forall (λ l, in_block (length m1 + 2) l = true) content
  ∧ (∃ l, last content = Some l ∧ is_blank l = false)
  ∧ blanks ≠ []
  ∧ Forall (λ l, is_blank l = true) blanks.

Definition header_then_sibling : jsstring := str "source: |
other: y".

Definition block_blank_sibling : jsstring := str "source: |
  a

other: y".

Definition one_line_block : jsstring := str "source: |
  a".

Definition indented_block : jsstring := str "rule:
  source: |
    x
  name: y".

Definition empty_state : ModuleState :=
  {| embeddedMQLDocumentCache := ∅;
     embeddedMQLOpenedYAMLDocuments := ∅;
     languageID := "mql" |}.

Definition whole_document : vscode.Range :=
  {| vscode.start := {| vscode.line := 0; vscode.character := 0 |};
     vscode.end_ := {| vscode.line := 0; vscode.character := 0 |} |}.

Definition scenario_text : jsstring := str "name: x
source: |
  a
  b
other: y
".


(** ** Statements about the detector and the masker *)

(** No line of [ls] is a block scalar header. *)
Definition no_header (ls : list jsstring) : Prop :=
  Forall (λ l, header_match l = None) ls.

(** [tail] does not go on with a line of the block: it is empty or starts
    with a line at which the inner loop stops. *)
Definition block_ends (contentIndent : nat) (tail : list jsstring) : Prop :=
  match tail with
  | [] => True
  | l :: _ => ends_block contentIndent l = true
  end.

(** ** Statements about the cache and the lifecycle *)

(** Every cached entry was computed from some text: its region is the one
    the detector finds there and its masked text is the masker's. *)
Definition cache_wf (st : ModuleState) : Prop :=
  ∀ uri cache,
    embeddedMQLDocumentCache st !! uri = Some cache →
    ∃ text, region cache = detectMQLRegion text
            ∧ maskedText cache = maskDocument text (region cache).

Definition event_document (ev : HostEvent) : vscode.TextDocument :=
  match ev with
  | HostOpen document | HostChange document | HostClose document => document
  end.

(** The host's own notification for an event, as [next] sends it. *)
Definition forwarded (ev : HostEvent) : ServiceCall :=
  match ev with
  | HostOpen document => next_didOpen document
  | HostChange document => next_didChange document
  | HostClose document => next_didClose document
  end.

(** The service's side of the notifications the middleware sends for YAML
    documents: [open] is the set of identities it has been told are open.
    A [didOpen] for an identity already open and a [didChange] for one that
    is not are refused ([None]). *)
Definition service_step (open : gset string) (c : ServiceCall)
    : option (gset string) :=
  match c with
  | sendNotification_didOpen uri _ _ _ =>
      if bool_decide (uri ∈ open) then None else Some ({[uri]} ∪ open)
  | sendNotification_didChange uri _ _ =>
      if bool_decide (uri ∈ open) then Some open else None
  | next_didClose document =>
      if is_yaml document then Some (open ∖ {[vscode.uri document]})
      else Some open
  | next_didOpen _ | next_didChange _ => Some open
  end.

Fixpoint service_run (open : gset string) (cs : list ServiceCall)
    : option (gset string) :=
  match cs with
  | [] => Some open
  | c :: cs' =>
      match service_step open c with
      | Some open' => service_run open' cs'
      | None => None
      end
  end.

(** A text sent to the service is a masked text, and a [didOpen] names the
    language [lang]. *)
Definition masked_payload (lang : string) (c : ServiceCall) : Prop :=
  match c with
  | sendNotification_didOpen _ languageId _ text =>
      languageId = lang
      ∧ ∃ t, text = maskDocument t (detectMQLRegion t)
  | sendNotification_didChange _ _ text =>
      ∃ t, text = maskDocument t (detectMQLRegion t)
  | _ => True
  end.

(** ** [extractComment], from the entry point of the extension
    (the version with the completion helper)

    The pattern is [^ \s* // \s* ( .+ ) $].  The dot matches any code unit
    but a line terminator, and [$] matches at the end of the string only. *)

Definition is_line_terminator (c : N) : bool :=
  (c =? 10) || (c =? 13) || (c =? 0x2028) || (c =? 0x2029).

(** The group and the end anchor: what is left of the string, which has to
    be non-empty and without a line terminator. *)
Definition dot_plus_end (s : jsstring) : option jsstring :=
  match s with
  | [] => None
  | _ :: _ =>
      if forallb (λ c, negb (is_line_terminator c)) s then Some s else None
  end.

(** The greedy star before the group, as the backtracking matcher runs it:
    it takes a whitespace character and goes on, and where the rest of the
    pattern then fails it stops before that character instead.  The
    result is the capture group. *)
Fixpoint ws_star_dot_plus_end (s : jsstring) : option jsstring :=
  match s with
  | c :: s' =>
      if is_space c then
        match ws_star_dot_plus_end s' with
        | Some m1 => Some m1
        | None => dot_plus_end s
        end
      else dot_plus_end s
  | [] => dot_plus_end []
  end.

(** [None] is [null]. *)
Definition extractComment (lineText : jsstring) : option jsstring :=
  match strip_prefix (str "//") (skip_ws lineText) with
  | Some after_slashes =>
      match ws_star_dot_plus_end after_slashes with
      | Some m1 =>
          match m1 with
          | [] => None
          | _ :: _ => Some (trim m1)
          end
      | None => None
      end
  | None => None
  end.

(** ** Line ends *)

(** The text with every line feed turned into carriage return, line feed. *)
Fixpoint to_crlf (s : jsstring) : jsstring :=
  match s with
  | [] => []
  | c :: s' => if c =? LF then CR :: LF :: to_crlf s' else c :: to_crlf s'
  end.

(** [l'] is [l], possibly with a carriage return more at its end. *)
Definition cr_variant (l l' : jsstring) : Prop := l' = l ∨ l' = l ++ [CR].

(** A notification the middleware sends itself about the identity [u]. *)
Definition sent_for (u : string) (c : ServiceCall) : bool :=
  match c with
  | sendNotification_didOpen uri _ _ _
  | sendNotification_didChange uri _ _ => bool_decide (uri = u)
  | _ => false
  end.

(** The identity [u] is not open and no region is cached for it. *)
Definition untracked (u : string) (st : ModuleState) : Prop :=
  (u ∉ embeddedMQLOpenedYAMLDocuments st)
  ∧ (∀ cache, embeddedMQLDocumentCache st !! u = Some cache →
              region cache = None).

(** * Properties *)

(** ** Splitting and joining lines *)

Lemma split_nl_cons c s :
  split_nl (c :: s) =
    if c =? LF then [] :: split_nl s
    else (c :: hd [] (split_nl s)) :: tl (split_nl s).
Proof.
  simpl. destruct (c =? LF); [done|].
  destruct s as [|d s]; simpl; [done|].
  destruct (d =? LF); [done|]. by destruct (split_nl s).
Qed.

Lemma split_nl_nonempty s : split_nl s ≠ [].
Proof.
  destruct s as [|c s]; simpl; [done|].
  destruct (c =? LF); [done|]. by destruct (split_nl s).
Qed.

Lemma split_nl_length_pos s : (0 < length (split_nl s))%nat.
Proof.
  pose proof (split_nl_nonempty s). destruct (split_nl s); simpl; [done|lia].
Qed.

Lemma split_nl_no_lf s : Forall no_lf (split_nl s).
Proof.
  induction s as [|c s IH]; simpl.
  - repeat constructor. apply not_elem_of_nil.
  - destruct (N.eqb_spec c LF) as [->|Hc].
    + constructor; [|done]. apply not_elem_of_nil.
    + destruct (split_nl s) as [|l ls]; simpl.
      * repeat constructor. unfold no_lf. rewrite not_elem_of_cons.
        split; [done|apply not_elem_of_nil].
      * inversion IH as [|? ? Hl Hls]; subst. constructor; [|done].
        unfold no_lf in *. rewrite not_elem_of_cons. by split.
Qed.

Lemma split_nl_app_no_lf l s :
  no_lf l → split_nl (l ++ LF :: s) = l :: split_nl s.
Proof.
  induction l as [|c l IH]; intros Hl; simpl.
  - done.
  - unfold no_lf in Hl. destruct (N.eqb_spec c LF) as [->|Hc]; [set_solver|].
    rewrite IH; [done|]. unfold no_lf. set_solver.
Qed.

Lemma split_nl_no_lf_id l : no_lf l → split_nl l = [l].
Proof.
  induction l as [|c l IH]; intros Hl; simpl; [done|].
  unfold no_lf in Hl. destruct (N.eqb_spec c LF) as [->|Hc]; [set_solver|].
  rewrite IH; [done|]. unfold no_lf. set_solver.
Qed.

Lemma split_join ls : ls ≠ [] → Forall no_lf ls → split_nl (join_nl ls) = ls.
Proof.
  induction ls as [|l ls IH]; intros Hne Hls; [done|].
  inversion Hls as [|? ? Hl Hls']; subst.
  destruct ls as [|l' ls].
  - simpl. by apply split_nl_no_lf_id.
  - change (join_nl (l :: l' :: ls)) with (l ++ LF :: join_nl (l' :: ls)).
    rewrite split_nl_app_no_lf by done. by rewrite IH.
Qed.

Lemma join_split s : join_nl (split_nl s) = s.
Proof.
  induction s as [|c s IH]; simpl; [done|].
  destruct (N.eqb_spec c LF) as [->|Hc].
  - pose proof (split_nl_nonempty s).
    destruct (split_nl s) as [|l ls] eqn:E; [done|].
    change (join_nl ([] :: l :: ls)) with (LF :: join_nl (l :: ls)).
    by rewrite IH.
  - pose proof (split_nl_nonempty s).
    destruct (split_nl s) as [|l ls] eqn:E; [done|].
    destruct ls as [|l' ls]; simpl in *; by rewrite <- IH.
Qed.

(** ** Blank lines *)

Lemma skip_ws_nil s : skip_ws s = [] ↔ forallb is_space s = true.
Proof.
  induction s as [|c s IH]; simpl; [done|].
  destruct (is_space c); simpl; [done|]. split; done.
Qed.

Lemma skip_ws_head s c t : skip_ws s = c :: t → is_space c = false.
Proof.
  induction s as [|x s IH]; simpl; [done|].
  destruct (is_space x) eqn:E; [done|]. by intros [= -> _].
Qed.

Lemma forallb_is_space_rev s :
  forallb is_space (rev s) = true → forallb is_space s = true.
Proof.
  rewrite !forallb_forall. intros H c Hc. apply H. by apply in_rev in Hc.
Qed.

(** A line is blank when it holds whitespace only. *)
Lemma is_blank_forallb s : is_blank s = forallb is_space s.
Proof.
  unfold is_blank, trim.
  destruct (forallb is_space s) eqn:E.
  - by rewrite (proj2 (skip_ws_nil s) E).
  - destruct (rev (skip_ws (rev (skip_ws s)))) as [|c t] eqn:Er; [|done].
    apply (f_equal (@rev N)) in Er. rewrite rev_involutive in Er. simpl in Er.
    apply skip_ws_nil, forallb_is_space_rev in Er.
    destruct (skip_ws s) as [|x r] eqn:Es.
    + apply skip_ws_nil in Es. congruence.
    + apply skip_ws_head in Es. simpl in Er. by rewrite Es in Er.
Qed.

(** ** The header pattern *)

Lemma ws_star_forallb s : matches ws_star s ↔ forallb is_space s = true.
Proof.
  split.
  - unfold ws_star. remember (Star (Class is_space)) as re eqn:E.
    induction 1 as [| | | |a s t Hs _ Ht IH| |]; try discriminate; [done|].
    injection E as ->. inversion Hs as [? c Hc| | | | | |]; subst. simpl.
    rewrite IH by done. by rewrite Hc.
  - induction s as [|c s IH]; simpl; intros H; [constructor|].
    apply andb_true_iff in H as [Hc Hs].
    apply (matches_star_more _ [c] s); [by constructor|by apply IH].
Qed.

Lemma leading_skip_ws s : s = leading_ws s ++ skip_ws s.
Proof.
  induction s as [|c s IH]; simpl; [done|].
  destruct (is_space c); simpl; [by f_equal|done].
Qed.

Lemma leading_ws_spaces s : forallb is_space (leading_ws s) = true.
Proof.
  induction s as [|c s IH]; simpl; [done|].
  destruct (is_space c) eqn:E; simpl; [by rewrite E|done].
Qed.

(** A run of whitespace before a character that is not whitespace is
    taken whole, whichever way the matcher tries. *)
Lemma ws_run_unique a c t :
  forallb is_space a = true → is_space c = false →
  leading_ws (a ++ c :: t) = a ∧ skip_ws (a ++ c :: t) = c :: t.
Proof.
  intros Ha Hc. induction a as [|x a IH]; simpl in *.
  - by rewrite Hc.
  - apply andb_true_iff in Ha as [Hx Ha]. rewrite Hx.
    destruct (IH Ha) as [-> ->]. done.
Qed.

Lemma strip_prefix_Some p s r : strip_prefix p s = Some r ↔ s = p ++ r.
Proof.
  revert s. induction p as [|a p IH]; intros s; simpl.
  - split; [by intros [= ->]|by intros ->].
  - destruct s as [|c s]; [done|].
    destruct (N.eqb_spec a c) as [->|Hne].
    + rewrite IH. split; [by intros ->|by intros [= ->]].
    + split; [done|]. intros [= ? ?]. done.
Qed.

(** [header_match] succeeds exactly on the lines the pattern matches, and
    its result is the only string the capture group can hold. *)
Lemma header_match_regex line m1 :
  header_match line = Some m1
  ↔ ∃ rest, line = m1 ++ rest ∧ matches ws_star m1
            ∧ matches header_after_group rest.
Proof.
  unfold header_match. split.
  - destruct (strip_prefix _ _) as [after_key|] eqn:Ek; [|done].
    apply strip_prefix_Some in Ek.
    destruct (skip_ws after_key) as [|c after_ind] eqn:Ei; [done|].
    destruct (is_block_indicator c) eqn:Ec; [|done].
    destruct (forallb _ _) eqn:Et; [|done]. intros [= <-].
    exists (skip_ws line). split; [apply leading_skip_ws|].
    split; [apply ws_star_forallb, leading_ws_spaces|].
    rewrite Ek, (leading_skip_ws after_key), Ei.
    apply matches_cat; [constructor|].
    apply matches_cat; [apply ws_star_forallb, leading_ws_spaces|].
    apply (matches_cat _ _ [c]); [by constructor|].
    destruct after_ind as [|d after]; simpl in Et.
    + apply (matches_cat _ _ [] []); constructor.
    + destruct (is_chomping d) eqn:Ed.
      * apply (matches_cat _ _ [d]);
          [by apply matches_opt_some; constructor|by apply ws_star_forallb].
      * apply (matches_cat _ _ []); [constructor|].
        apply ws_star_forallb. simpl. done.
  - intros (rest & -> & Hm1 & Hrest). apply ws_star_forallb in Hm1.
    unfold header_after_group in Hrest.
    inversion Hrest as [| |? ? k r1 Hk H1| | | |]; subst. inversion Hk; subst.
    inversion H1 as [| |? ? a r2 Ha H2| | | |]; subst.
    apply ws_star_forallb in Ha.
    inversion H2 as [| |? ? ci r3 Hci H3| | | |]; subst.
    inversion Hci as [? c Hc| | | | | |]; subst.
    inversion H3 as [| |? ? o d Ho Hd| | | |]; subst.
    apply ws_star_forallb in Hd.
    assert (is_space c = false) as Hcs.
    { unfold is_block_indicator in Hc. apply orb_true_iff in Hc.
      destruct Hc as [->%N.eqb_eq| ->%N.eqb_eq]; reflexivity. }
    destruct (ws_run_unique m1 115 (str "ource:" ++ a ++ [c] ++ o ++ d) Hm1 eq_refl)
      as [E1 E2].
    change (str "source:" ++ a ++ [c] ++ o ++ d)
      with (115 :: str "ource:" ++ a ++ [c] ++ o ++ d).
    rewrite E1, E2.
    change (115 :: str "ource:" ++ a ++ [c] ++ o ++ d)
      with (str "source:" ++ a ++ [c] ++ o ++ d).
    rewrite (proj2 (strip_prefix_Some _ _ (a ++ [c] ++ o ++ d))) by done.
    change (a ++ [c] ++ o ++ d) with (a ++ c :: o ++ d).
    destruct (ws_run_unique a c (o ++ d) Ha Hcs) as [_ ->].
    rewrite Hc.
    assert (forallb is_space (skip_chomping (o ++ d)) = true) as ->; [|done].
    inversion Ho as [| | | | |?|? ? Ho']; subst; simpl.
    + destruct d as [|x d]; simpl in *; [done|].
      apply andb_true_iff in Hd as [Hx Hd].
      assert (is_chomping x = false) as ->.
      { unfold is_chomping. destruct (N.eqb_spec x 45) as [->|]; [done|].
        destruct (N.eqb_spec x 43) as [->|]; done. }
      simpl. by rewrite Hx.
    + inversion Ho' as [? x Hx| | | | | |]; subst. simpl. by rewrite Hx.
Qed.

(** ** The masker *)

Lemma restore_lines_length region lines todo lineNum maskedLines :
  length (restore_lines region lines todo lineNum maskedLines)
  = length maskedLines.
Proof.
  revert lineNum maskedLines.
  induction todo as [|todo IH]; intros lineNum maskedLines; simpl; [done|].
  destruct (_ && _); [|done]. by rewrite IH, length_insert.
Qed.

(** The loop restores exactly the lines from [lineNum] to [endLine]
    (those that exist), provided [todo] covers what is left of the span. *)
Lemma restore_lines_lookup region lines todo lineNum maskedLines i :
  length maskedLines = length lines →
  (S (endLine region) - lineNum ≤ todo)%nat →
  restore_lines region lines todo lineNum maskedLines !! i
  = if bool_decide (lineNum ≤ i ≤ endLine region)%nat
    then lines !! i else maskedLines !! i.
Proof.
  revert lineNum maskedLines.
  induction todo as [|todo IH]; intros lineNum maskedLines Hlen Htodo; simpl.
  - rewrite bool_decide_eq_false_2 by lia. done.
  - destruct (Nat.leb_spec lineNum (endLine region)) as [Hle|Hgt]; simpl.
    + destruct (Nat.ltb_spec lineNum (length lines)) as [Hlt|Hge].
      * rewrite IH by (rewrite ?length_insert; lia).
        destruct (lookup_lt_is_Some_2 lines lineNum Hlt) as [l Hl].
        rewrite Hl. simpl.
        destruct (decide (i = lineNum)) as [->|Hne].
        -- rewrite bool_decide_eq_false_2 by lia.
           rewrite bool_decide_eq_true_2 by lia.
           rewrite list_lookup_insert_eq by lia. done.
        -- rewrite list_lookup_insert_ne by done.
           destruct (decide (lineNum ≤ i ≤ endLine region)%nat).
           ++ rewrite !bool_decide_eq_true_2 by lia. done.
           ++ rewrite !bool_decide_eq_false_2 by lia. done.
      * case_bool_decide; [|done].
        rewrite !lookup_ge_None_2 by lia. done.
    + rewrite bool_decide_eq_false_2 by lia. done.
Qed.

Lemma restore_lines_spec region lines i :
  restore_lines region lines (S (endLine region) - startLine region)
    (startLine region) (List.map (λ _, []) lines) !! i
  = masked_line (Some region) i <$> lines !! i.
Proof.
  rewrite restore_lines_lookup by (rewrite ?length_map; lia).
  unfold masked_line. case_bool_decide.
  - by destruct (lines !! i).
  - change (List.map (λ _ : jsstring, []) lines) with ((λ _ : jsstring, @nil N) <$> lines).
    by rewrite list_lookup_fmap.
Qed.

(** The lines the masker joins, before [join("\n")]. *)
Lemma maskDocument_lines text region :
  ∃ maskedLines,
    maskDocument text region = join_nl maskedLines ∧
    (∀ i, maskedLines !! i = masked_line region i <$> split_nl text !! i) ∧
    split_nl (join_nl maskedLines) = maskedLines.
Proof.
  assert (∀ maskedLines,
    (∀ i, maskedLines !! i = masked_line region i <$> split_nl text !! i) →
    split_nl (join_nl maskedLines) = maskedLines) as Hsplit.
  { intros maskedLines Hl. apply split_join.
    - pose proof (split_nl_nonempty text) as Hne.
      destruct (split_nl text) as [|l ls] eqn:E; [done|].
      specialize (Hl 0%nat). simpl in Hl. by destruct maskedLines.
    - apply Forall_lookup_2. intros i l Hi.
      rewrite Hl in Hi. apply fmap_Some in Hi as (l0 & Hl0 & ->).
      pose proof (Forall_lookup_1 _ _ _ _ (split_nl_no_lf text) Hl0) as Hno.
      unfold masked_line. destruct region as [r|]; [|apply not_elem_of_nil].
      case_bool_decide; [done|apply not_elem_of_nil]. }
  destruct region as [r|]; simpl.
  - eexists. split; [done|].
    assert (∀ i, restore_lines r (split_nl text) (S (endLine r) - startLine r)
                   (startLine r) (List.map (λ _, []) (split_nl text)) !! i
                 = masked_line (Some r) i <$> split_nl text !! i) as Hl
      by apply restore_lines_spec.
    split; [done|]. by apply Hsplit.
  - eexists. split; [done|].
    assert (∀ i, List.map (λ _ : jsstring, @nil N) (split_nl text) !! i
                 = masked_line None i <$> split_nl text !! i) as Hl.
    { intros i.
      change (List.map (λ _ : jsstring, []) (split_nl text))
        with ((λ _ : jsstring, @nil N) <$> split_nl text).
      by rewrite list_lookup_fmap. }
    split; [done|]. by apply Hsplit.
Qed.

Lemma maskDocument_split_lookup text region i :
  split_nl (maskDocument text region) !! i
  = masked_line region i <$> split_nl text !! i.
Proof.
  destruct (maskDocument_lines text region) as (ml & -> & Hl & ->). apply Hl.
Qed.

Lemma masked_line_idem region i line :
  masked_line region i (masked_line region i line) = masked_line region i line.
Proof.
  unfold masked_line. destruct region; [|done]. by case_bool_decide.
Qed.

(** C2: on the scenario text the detector finds lines 2 to 3 and the masker
    keeps exactly those two lines, leaving six lines in all. *)
Theorem C2_scenario :
  scenario_text
    = [110; 97; 109; 101; 58; 32; 120; LF;
       115; 111; 117; 114; 99; 101; 58; 32; 124; LF;
       32; 32; 97; LF; 32; 32; 98; LF;
       111; 116; 104; 101; 114; 58; 32; 121; LF] ∧
  detectMQLRegion scenario_text = Some {| startLine := 2; endLine := 3 |} ∧
  maskDocument scenario_text (Some {| startLine := 2; endLine := 3 |})
    = [LF; LF; 32; 32; 97; LF; 32; 32; 98; LF; LF].
Proof. repeat split; vm_compute; reflexivity. Qed.

(** C3: the masked text has as many lines as the host text; with a region,
    line [i] is the host's line when [startLine <= i <= endLine] and the
    empty string otherwise; without a region every line is empty. *)
Theorem C3_maskDocument_line_by_line text region i :
  length (split_nl (maskDocument text region)) = length (split_nl text) ∧
  split_nl (maskDocument text region) !! i
  = (λ line,
       match region with
       | Some r =>
           if bool_decide (startLine r ≤ i ≤ endLine r)%nat then line else []
       | None => []
       end) <$> split_nl text !! i.
Proof.
  split; [|apply maskDocument_split_lookup].
  apply Nat.le_antisymm.
  - apply Nat.nlt_ge. intros Hlt.
    destruct (lookup_lt_is_Some_2 _ _ Hlt) as [l Hl].
    rewrite maskDocument_split_lookup in Hl.
    rewrite lookup_ge_None_2 in Hl by lia. done.
  - apply Nat.nlt_ge. intros Hlt.
    destruct (lookup_lt_is_Some_2 _ _ Hlt) as [l Hl].
    pose proof (maskDocument_split_lookup text region (length (split_nl (maskDocument text region)))) as H.
    rewrite Hl in H. rewrite lookup_ge_None_2 in H by lia. done.
Qed.

(** C9: masking a masked text again, with the same region, changes nothing. *)
Theorem C9_maskDocument_idempotent text region :
  maskDocument (maskDocument text region) region = maskDocument text region.
Proof.
  destruct (maskDocument_lines (maskDocument text region) region)
    as (ml2 & E2 & Hl2 & _).
  rewrite E2. rewrite <- (join_split (maskDocument text region)).
  f_equal. apply list_eq. intros i.
  rewrite Hl2, !maskDocument_split_lookup.
  destruct (split_nl text !! i); simpl; [|done].
  by rewrite masked_line_idem.
Qed.

(** ** The detector *)

Lemma scan_block_range contentIndent rest j e :
  scan_block contentIndent rest j e = e
  ∨ (j ≤ scan_block contentIndent rest j e < j + length rest)%nat.
Proof.
  revert j e. induction rest as [|l rest IH]; intros j e; simpl; [by left|].
  destruct (is_blank l).
  - right. destruct (IH (S j) j) as [->|?]; lia.
  - destruct (_ <? _)%nat; [by left|].
    right. destruct (IH (S j) j) as [->|?]; lia.
Qed.

Lemma scan_lines_bounds len rest i r :
  (i + length rest = len)%nat →
  scan_lines len rest i = Some r →
  (i + 1 ≤ startLine r ∧ startLine r ≤ endLine r ∧ endLine r ≤ len - 1)%nat.
Proof.
  revert i. induction rest as [|l rest IH]; intros i Hlen Hr; simpl in *; [done|].
  destruct (header_match l) as [m1|].
  - destruct (Nat.leb_spec len (i + 1)) as [|Hlt]; [done|].
    destruct (Nat.leb_spec (i + 1)
      (scan_block (length m1 + 2) rest (i + 1) (i + 1))) as [Hle|Hgt].
    + inversion Hr; subst r; simpl.
      destruct (scan_block_range (length m1 + 2) rest (i + 1) (i + 1)); lia.
    + destruct (IH (S i) ltac:(lia) Hr) as (? & ? & ?). lia.
  - destruct (IH (S i) ltac:(lia) Hr) as (? & ? & ?). lia.
Qed.

Lemma detectMQLRegion_bounds text r :
  detectMQLRegion text = Some r →
  (1 ≤ startLine r ∧ startLine r ≤ endLine r
   ∧ endLine r < length (split_nl text))%nat.
Proof.
  intros Hr. unfold detectMQLRegion in Hr.
  apply scan_lines_bounds in Hr; [|done].
  pose proof (split_nl_length_pos text). lia.
Qed.

Lemma mkRange_ordered l1 l2 c :
  (l1 ≤ l2)%nat →
  vscode.mkRange {| vscode.line := l1; vscode.character := 0 |}
                 {| vscode.line := l2; vscode.character := c |}
  = {| vscode.start := {| vscode.line := l1; vscode.character := 0 |};
       vscode.end_ := {| vscode.line := l2; vscode.character := c |} |}.
Proof.
  intros Hle. unfold vscode.mkRange, vscode.isBefore. simpl.
  destruct (Nat.ltb_spec l1 l2); [done|].
  destruct (Nat.ltb_spec l2 l1); [lia|].
  assert (l1 = l2) as -> by lia.
  destruct (Nat.ltb_spec 0 c); [done|].
  by assert (c = 0%nat) as -> by lia.
Qed.

(** C10: a region found in a text of [n] lines has
    [1 <= startLine <= endLine <= n - 1]; so the header line
    [startLine - 1] and the line [endLine] are lines of the text. *)
Theorem C10_detectMQLRegion_bounds text r :
  detectMQLRegion text = Some r →
  let n := length (split_nl text) in
  (1 ≤ startLine r ∧ startLine r ≤ endLine r ∧ endLine r ≤ n - 1)%nat
  ∧ is_Some (split_nl text !! (startLine r - 1)%nat)
  ∧ is_Some (split_nl text !! endLine r).
Proof.
  intros Hr n. destruct (detectMQLRegion_bounds text r Hr) as (? & ? & ?).
  split; [subst n; lia|].
  split; apply lookup_lt_is_Some_2; lia.
Qed.

Lemma C10_detectMQLRegion_bounds_witness :
  detectMQLRegion scenario_text = Some {| startLine := 2; endLine := 3 |}
  ∧ (1 ≤ 2 ∧ 2 ≤ 3 ∧ 3 ≤ length (split_nl scenario_text) - 1)%nat.
Proof.
  split; [vm_compute; reflexivity|].
  exact (proj1 (C10_detectMQLRegion_bounds scenario_text
                  {| startLine := 2; endLine := 3 |} eq_refl)).
Defined.

(** The outer loop stops at the first header line: what precedes it is
    skipped, and when a line follows it a region is always returned. *)
Lemma scan_lines_first_header len pre header m1 rest i :
  Forall (λ l, header_match l = None) pre →
  header_match header = Some m1 →
  scan_lines len (pre ++ header :: rest) i =
    if (len <=? i + length pre + 1)%nat then None
    else Some {| startLine := i + length pre + 1;
                 endLine := scan_block (length m1 + 2) rest
                              (i + length pre + 1) (i + length pre + 1) |}.
Proof.
  intros Hpre Hh. revert i.
  induction Hpre as [|l pre Hl Hpre IH]; intros i; simpl.
  - rewrite Hh. replace (i + 0 + 1)%nat with (i + 1)%nat by lia.
    destruct (len <=? i + 1)%nat; [done|].
    destruct (Nat.leb_spec (i + 1)
      (scan_block (length m1 + 2) rest (i + 1) (i + 1))) as [|Hgt]; [done|].
    destruct (scan_block_range (length m1 + 2) rest (i + 1) (i + 1)); lia.
  - rewrite Hl, IH.
    replace (S i + length pre + 1)%nat with (i + S (length pre) + 1)%nat by lia.
    done.
Qed.

Lemma detectMQLRegion_first_header text pre header m1 rest :
  split_nl text = pre ++ header :: rest →
  Forall (λ l, header_match l = None) pre →
  header_match header = Some m1 →
  detectMQLRegion text =
    match rest with
    | [] => None
    | _ :: _ =>
        Some {| startLine := length pre + 1;
                endLine := scan_block (length m1 + 2) rest
                             (length pre + 1) (length pre + 1) |}
    end.
Proof.
  intros E Hpre Hh. unfold detectMQLRegion. rewrite E.
  rewrite (scan_lines_first_header _ pre header m1 rest 0) by done.
  rewrite length_app. simpl.
  destruct rest as [|l rest]; simpl.
  - rewrite (proj2 (Nat.leb_le _ _)) by lia. done.
  - rewrite (proj2 (Nat.leb_gt _ _)) by lia. done.
Qed.

(** The inner loop runs over the lines of the block and stops at the first
    line that ends it, or at the end of the text. *)
Lemma scan_block_block contentIndent block tail j e :
  Forall (λ l, in_block contentIndent l = true) block →
  match tail with
  | [] => True
  | l :: _ => ends_block contentIndent l = true
  end →
  scan_block contentIndent (block ++ tail) j e =
    match block with
    | [] => e
    | _ :: _ => (j + length block - 1)%nat
    end.
Proof.
  intros Hblock Htail. revert j e.
  induction Hblock as [|l block Hl Hblock IH]; intros j e; simpl.
  - destruct tail as [|l tail]; simpl; [done|].
    unfold ends_block in Htail. apply andb_true_iff in Htail as [Hb Hi].
    apply negb_true_iff in Hb. by rewrite Hb, Hi.
  - unfold in_block in Hl.
    assert (scan_block contentIndent (block ++ tail) (S j) j
            = (j + S (length block) - 1)%nat) as Hnext.
    { rewrite IH. destruct block; simpl; lia. }
    destruct (is_blank l); [done|].
    simpl in Hl. apply negb_true_iff in Hl. by rewrite Hl.
Qed.

(** C5: a header line directly followed by a non-blank line indented less
    than [contentIndent]: the scan includes no content line, and the
    detector still returns the region of that one line. *)
Theorem C5_header_then_sibling_detected :
  split_nl header_then_sibling
    = [str "source: |"; str "other: y"]
  ∧ header_match (str "source: |") = Some []
  ∧ ends_block 2 (str "other: y") = true
  ∧ detectMQLRegion header_then_sibling
    = Some {| startLine := 1; endLine := 1 |}.
Proof. repeat split; vm_compute; reflexivity. Qed.

(** C6, as stated, fails: in the four lines [source: |], [  a], an empty
    line and [other: y], the empty line is followed by a less indented
    line, yet [endLine] is its index 2, not the index 1 of the last
    content line. *)
Lemma C6_trailing_blank_not_excluded :
  blanks_after_block block_blank_sibling
    [] (str "source: |") [] [str "  a"] [[]] [str "other: y"]
  ∧ ends_block (length (@nil N) + 2) (str "other: y") = true
  ∧ detectMQLRegion block_blank_sibling
    ≠ Some {| startLine := length (@nil jsstring) + 1;
              endLine := length (@nil jsstring) + length [str "  a"] |}.
Proof.
  split; [|split].
  - unfold blanks_after_block. split; [vm_compute; reflexivity|].
    split; [constructor|]. split; [vm_compute; reflexivity|].
    split; [repeat constructor|].
    split; [eexists; split; [reflexivity|vm_compute; reflexivity]|].
    split; [done|repeat constructor].
  - vm_compute; reflexivity.
  - vm_compute. discriminate.
Qed.

(** C6, amended: blank lines that follow the content lines belong to the
    region whether a less indented line follows them or the text ends
    there; [endLine] is the index of the last of them. *)
Theorem C6_trailing_blanks_kept text pre header m1 content blanks tail :
  blanks_after_block text pre header m1 content blanks tail →
  match tail with
  | [] => True
  | l :: _ => ends_block (length m1 + 2) l = true
  end →
  detectMQLRegion text
  = Some {| startLine := length pre + 1;
            endLine := length pre + length content + length blanks |}.
Proof.
  intros (E & Hpre & Hh & Hcontent & _ & Hne & Hblanks) Htail.
  rewrite (detectMQLRegion_first_header text pre header m1
             (content ++ blanks ++ tail)) by done.
  assert (Forall (λ l, in_block (length m1 + 2) l = true) (content ++ blanks))
    as Hblock.
  { apply Forall_app. split; [done|].
    eapply Forall_impl; [exact Hblanks|]. intros l Hl. unfold in_block.
    by rewrite Hl. }
  rewrite (assoc_L (++)).
  rewrite (scan_block_block _ (content ++ blanks) tail) by done.
  assert (0 < length blanks)%nat by (destruct blanks; simpl; [done|lia]).
  destruct (content ++ blanks) as [|l0 block] eqn:Eb.
  - apply (f_equal length) in Eb. rewrite length_app in Eb. simpl in Eb. lia.
  - simpl app. cbv iota. f_equal. f_equal.
    rewrite <- Eb, length_app. lia.
Qed.

Lemma C6_trailing_blanks_kept_witness :
  detectMQLRegion block_blank_sibling
  = Some {| startLine := 1; endLine := 2 |}.
Proof.
  apply (C6_trailing_blanks_kept block_blank_sibling
           [] (str "source: |") [] [str "  a"] [[]] [str "other: y"]).
  - unfold blanks_after_block. split; [vm_compute; reflexivity|].
    split; [constructor|]. split; [vm_compute; reflexivity|].
    split; [repeat constructor|].
    split; [eexists; split; [reflexivity|vm_compute; reflexivity]|].
    split; [done|repeat constructor].
  - vm_compute; reflexivity.
Defined.

(** ** The document cache *)

Ltac step_M :=
  unfold mbind, M_bind, mret, M_ret, get_state, call, opened_has, opened_add,
    opened_delete, cache_delete, cache_set; simpl.

Lemma getEmbedded_miss document st :
  cache_hit (embeddedMQLDocumentCache st !! vscode.uri document) document
  = None →
  getEmbeddedMQLCachedDocumentData document st
  = (fresh_entry document,
     with_entry (vscode.uri document) (fresh_entry document) st, []).
Proof.
  intros H. unfold getEmbeddedMQLCachedDocumentData. step_M.
  rewrite H. reflexivity.
Qed.

Lemma getEmbedded_hit document st c :
  cache_hit (embeddedMQLDocumentCache st !! vscode.uri document) document
  = Some c →
  getEmbeddedMQLCachedDocumentData document st = (c, st, []).
Proof.
  intros H. unfold getEmbeddedMQLCachedDocumentData. step_M.
  rewrite H. reflexivity.
Qed.

Lemma cache_hit_other_version c document :
  version c ≠ vscode.version document → cache_hit (Some c) document = None.
Proof.
  intros H. unfold cache_hit.
  by destruct (Z.eqb_spec (version c) (vscode.version document)).
Qed.

(** The lookup sends nothing and leaves the opened set and the language id
    alone. *)
Lemma getEmbedded_frame document st :
  (getEmbeddedMQLCachedDocumentData document st).2 = []
  ∧ embeddedMQLOpenedYAMLDocuments (getEmbeddedMQLCachedDocumentData document st).1.2
    = embeddedMQLOpenedYAMLDocuments st
  ∧ languageID (getEmbeddedMQLCachedDocumentData document st).1.2
    = languageID st.
Proof.
  destruct (cache_hit (embeddedMQLDocumentCache st !! vscode.uri document)
              document) as [c|] eqn:E.
  - by rewrite (getEmbedded_hit _ _ c).
  - by rewrite getEmbedded_miss.
Qed.

(** ** The lifecycle: one lemma for each transition *)

Lemma didOpen_yaml_unopened document st :
  is_yaml document = true →
  vscode.uri document ∉ embeddedMQLOpenedYAMLDocuments st →
  cache_hit (embeddedMQLDocumentCache st !! vscode.uri document) document
  = None →
  didOpen document st =
    let c := fresh_entry document in
    let st1 := with_entry (vscode.uri document) c st in
    match region c with
    | None => ((), st1, [])
    | Some _ =>
        ((), with_opened (vscode.uri document) st1,
         [sendNotification_didOpen (vscode.uri document) (languageID st)
            (vscode.version document) (maskedText c)])
    end.
Proof.
  intros Hy Ho Hc. unfold didOpen. rewrite Hy. simpl negb. cbv iota.
  step_M. rewrite bool_decide_eq_false_2 by done.
  rewrite getEmbedded_miss by done. simpl.
  by destruct (detectMQLRegion (vscode.getText document)).
Qed.

Lemma didChange_yaml_unopened document st :
  is_yaml document = true →
  vscode.uri document ∉ embeddedMQLOpenedYAMLDocuments st →
  cache_hit (embeddedMQLDocumentCache st !! vscode.uri document) document
  = None →
  didChange document st =
    let c := fresh_entry document in
    let st1 := with_entry (vscode.uri document) c st in
    match region c with
    | None => ((), st1, [])
    | Some _ =>
        ((), with_opened (vscode.uri document) st1,
         [sendNotification_didOpen (vscode.uri document) (languageID st)
            (vscode.version document) (maskedText c)])
    end.
Proof.
  intros Hy Ho Hc. unfold didChange. rewrite Hy. simpl negb. cbv iota.
  step_M. rewrite getEmbedded_miss by done. simpl.
  rewrite (bool_decide_eq_false_2 (vscode.uri document ∈ _)) by done.
  by destruct (detectMQLRegion (vscode.getText document)).
Qed.

Lemma didChange_yaml_opened document st :
  is_yaml document = true →
  vscode.uri document ∈ embeddedMQLOpenedYAMLDocuments st →
  cache_hit (embeddedMQLDocumentCache st !! vscode.uri document) document
  = None →
  didChange document st =
    ((), with_entry (vscode.uri document) (fresh_entry document) st,
     [sendNotification_didChange (vscode.uri document)
        (vscode.version document) (maskedText (fresh_entry document))]).
Proof.
  intros Hy Ho Hc. unfold didChange. rewrite Hy. simpl negb. cbv iota.
  step_M. rewrite getEmbedded_miss by done. simpl.
  rewrite (bool_decide_eq_true_2 (vscode.uri document ∈ _)) by done.
  rewrite andb_false_r. reflexivity.
Qed.

Lemma didClose_yaml document st :
  is_yaml document = true →
  didClose document st =
    ((), without_entry (vscode.uri document)
           (without_opened (vscode.uri document) st),
     [next_didClose document]).
Proof. intros Hy. unfold didClose. rewrite Hy. reflexivity. Qed.

(** C1: open without a region, a change that brings a region, a change
    that keeps it, close, on an identity that is in neither collection at
    the start; the host gives each change a new version.  The four events
    send, in turn: nothing; one [didOpen] with the masked text; one
    [didChange]; the close the host itself passes on.  Afterwards the
    identity is in neither collection. *)
Theorem C1_lifecycle st uri v1 v2 v3 vc t1 t2 t3 tc r2 r3 :
  embeddedMQLDocumentCache st !! uri = None →
  uri ∉ embeddedMQLOpenedYAMLDocuments st →
  v1 ≠ v2 → v2 ≠ v3 →
  detectMQLRegion t1 = None →
  detectMQLRegion t2 = Some r2 →
  detectMQLRegion t3 = Some r3 →
  ∃ st',
    run [HostOpen (yaml_document uri v1 t1);
         HostChange (yaml_document uri v2 t2);
         HostChange (yaml_document uri v3 t3);
         HostClose (yaml_document uri vc tc)] st
    = (st',
       [ [];
         [sendNotification_didOpen uri (languageID st) v2
            (maskDocument t2 (Some r2))];
         [sendNotification_didChange uri v3 (maskDocument t3 (Some r3))];
         [next_didClose (yaml_document uri vc tc)] ])
    ∧ embeddedMQLDocumentCache st' !! uri = None
    ∧ uri ∉ embeddedMQLOpenedYAMLDocuments st'.
Proof.
  intros Hc Ho Hv12 Hv23 H1 H2 H3.
  unfold run, handle.
  rewrite didOpen_yaml_unopened; [|done|done|simpl; by rewrite Hc].
  unfold fresh_entry at 1. simpl region. simpl vscode.getText at 1.
  cbv zeta. rewrite H1.
  rewrite didChange_yaml_unopened; [|done|done|].
  2:{ simpl. rewrite lookup_insert_eq. by apply cache_hit_other_version. }
  cbv zeta. unfold fresh_entry at 1. simpl region. simpl vscode.getText at 1.
  rewrite H2.
  rewrite didChange_yaml_opened;
    [|done|simpl; apply elem_of_union_l; by apply elem_of_singleton|].
  2:{ simpl. rewrite lookup_insert_eq. by apply cache_hit_other_version. }
  rewrite didClose_yaml by done.
  eexists. split.
  - simpl. rewrite H2, H3. reflexivity.
  - simpl. split; [apply lookup_delete_eq|].
    rewrite elem_of_difference, elem_of_singleton. tauto.
Qed.

Lemma C1_lifecycle_witness :
  let st := {| embeddedMQLDocumentCache := ∅;
               embeddedMQLOpenedYAMLDocuments := ∅;
               languageID := "mql" |} in
  let uri := "file:///rule.yml"%string in
  ∃ st',
    run [HostOpen (yaml_document uri 1 (str "name: x"));
         HostChange (yaml_document uri 2 scenario_text);
         HostChange (yaml_document uri 3 scenario_text);
         HostClose (yaml_document uri 3 scenario_text)] st
    = (st',
       [ [];
         [sendNotification_didOpen uri "mql" 2
            (maskDocument scenario_text (Some {| startLine := 2; endLine := 3 |}))];
         [sendNotification_didChange uri 3
            (maskDocument scenario_text (Some {| startLine := 2; endLine := 3 |}))];
         [next_didClose (yaml_document uri 3 scenario_text)] ])
    ∧ embeddedMQLDocumentCache st' !! uri = None
    ∧ uri ∉ embeddedMQLOpenedYAMLDocuments st'.
Proof.
  intros st uri.
  apply (C1_lifecycle st uri 1 2 3 3 (str "name: x") scenario_text
           scenario_text scenario_text
           {| startLine := 2; endLine := 3 |}
           {| startLine := 2; endLine := 3 |}).
  - reflexivity.
  - apply not_elem_of_empty.
  - lia.
  - lia.
  - vm_compute; reflexivity.
  - vm_compute; reflexivity.
  - vm_compute; reflexivity.
Defined.


(** ** The formatting provider *)

(** What the provider does with a one-edit answer for a YAML document. *)
Lemma resume_single_edit st document edit :
  is_yaml document = true →
  (provideDocumentFormattingEdits_resume document (Some [edit]) st).1.1 =
    match lookup_region document st with
    | None => Threw TypeError
    | Some r =>
        match vscode.lineAt document (Z.of_nat (startLine r) - 1) with
        | None => Threw IllegalLine
        | Some sourceLine =>
            match vscode.lineAt document (Z.of_nat (endLine r)) with
            | None => Threw IllegalLine
            | Some endLineText =>
                Returned (Some
                  [{| vscode.range :=
                        vscode.mkRange
                          {| vscode.line := startLine r;
                             vscode.character := 0 |}
                          {| vscode.line := endLine r;
                             vscode.character := length endLineText |};
                      vscode.newText :=
                        reindent (leading_ws sourceLine ++ str "  ")
                          (vscode.newText edit) |}])
            end
        end
    end.
Proof.
  intros Hy. unfold provideDocumentFormattingEdits_resume, lookup_region.
  rewrite Hy. step_M.
  destruct (getEmbeddedMQLCachedDocumentData document st) as [[c st1] out].
  simpl. destruct (region c) as [r|]; [|done].
  destruct (vscode.lineAt document (Z.of_nat (startLine r) - 1)); [|done].
  by destruct (vscode.lineAt document (Z.of_nat (endLine r))).
Qed.

(** What it does with any other answer. *)
Lemma resume_not_single_edit st document edits :
  is_yaml document = true →
  edit_count edits ≠ 1%nat →
  ∃ res,
    (provideDocumentFormattingEdits_resume document edits st).1.1
    = Returned res ∧ no_edit res = true.
Proof.
  intros Hy Hn. unfold provideDocumentFormattingEdits_resume.
  destruct edits as [[|e [|e' es]]|]; simpl in Hn; [by eexists|done| |by eexists].
  rewrite Hy. step_M.
  destruct (getEmbeddedMQLCachedDocumentData document st) as [[c st1] out].
  by eexists.
Qed.

(** The gate: outside a region the request is not forwarded; inside, the
    provider goes on with the service's answer. *)
Lemma provideDocumentFormattingEdits_gate st document edits :
  is_yaml document = true →
  (provideDocumentFormattingEdits document edits st).1.1 =
    match lookup_region document st with
    | None => Returned None
    | Some _ =>
        (provideDocumentFormattingEdits_resume document edits
           (getEmbeddedMQLCachedDocumentData document st).1.2).1.1
    end.
Proof.
  intros Hy.
  unfold provideDocumentFormattingEdits, isInsideValidMQLRegion, lookup_region.
  rewrite Hy. step_M.
  destruct (getEmbeddedMQLCachedDocumentData document st) as [[c st1] out].
  simpl. destruct (region c) as [r|]; simpl; [|done].
  by destruct (provideDocumentFormattingEdits_resume document edits st1)
    as [[res st2] out2].
Qed.

(** C7: the region cached for the document is the region of its text, the
    header line is indented by two spaces, and the answer is the one edit
    [a], line feed, [b]: the edit returned has each of the two lines behind
    four spaces and runs from column 0 of [startLine] to the end of
    [endLine]. *)
Theorem C7_reindented_edit st document r rng sourceLine :
  is_yaml document = true →
  lookup_region document st = Some r →
  detectMQLRegion (vscode.getText document) = Some r →
  vscode.lineAt document (Z.of_nat (startLine r) - 1) = Some sourceLine →
  leading_ws sourceLine = [32; 32] →
  ∃ endLineText,
    vscode.lineAt document (Z.of_nat (endLine r)) = Some endLineText
    ∧ (provideDocumentFormattingEdits_resume document
         (Some [{| vscode.range := rng; vscode.newText := [97; LF; 98] |}])
         st).1.1
      = Returned (Some
          [{| vscode.range :=
                {| vscode.start :=
                     {| vscode.line := startLine r; vscode.character := 0 |};
                   vscode.end_ :=
                     {| vscode.line := endLine r;
                        vscode.character := length endLineText |} |};
              vscode.newText :=
                [32; 32; 32; 32; 97; LF; 32; 32; 32; 32; 98] |}]).
Proof.
  intros Hy Hr Hd Hs Hi.
  destruct (detectMQLRegion_bounds _ _ Hd) as (H1 & Hle & Hn).
  destruct (lookup_lt_is_Some_2 _ _ Hn) as [l Hl].
  assert (vscode.lineAt document (Z.of_nat (endLine r))
          = Some (vscode.strip_cr l)) as He.
  { unfold vscode.lineAt. destruct (Z.ltb_spec (Z.of_nat (endLine r)) 0); [lia|].
    by rewrite Nat2Z.id, Hl. }
  exists (vscode.strip_cr l). split; [done|].
  rewrite resume_single_edit by done. rewrite Hr, Hs, He, Hi.
  by rewrite mkRange_ordered.
Qed.

Lemma C7_reindented_edit_witness :
  ∃ endLineText,
    vscode.lineAt (yaml_document "file:///rule.yml" 1 indented_block)
      (Z.of_nat 2) = Some endLineText
    ∧ (provideDocumentFormattingEdits_resume
         (yaml_document "file:///rule.yml" 1 indented_block)
         (Some [{| vscode.range := whole_document;
                   vscode.newText := [97; LF; 98] |}]) empty_state).1.1
      = Returned (Some
          [{| vscode.range :=
                {| vscode.start := {| vscode.line := 2; vscode.character := 0 |};
                   vscode.end_ :=
                     {| vscode.line := 2;
                        vscode.character := length endLineText |} |};
              vscode.newText :=
                [32; 32; 32; 32; 97; LF; 32; 32; 32; 32; 98] |}]).
Proof.
  apply (C7_reindented_edit empty_state
           (yaml_document "file:///rule.yml" 1 indented_block)
           {| startLine := 2; endLine := 2 |} whole_document
           (str "  source: |")).
  - reflexivity.
  - vm_compute; reflexivity.
  - vm_compute; reflexivity.
  - vm_compute; reflexivity.
  - vm_compute; reflexivity.
Defined.

(** C8: with a region cached for the YAML document, an answer of no edit or
    of two or more edits comes back as a result that carries no edit, and
    nothing is thrown. *)
Theorem C8_malformed_response_no_edit st document r edits :
  is_yaml document = true →
  lookup_region document st = Some r →
  edit_count edits ≠ 1%nat →
  ∃ res,
    (provideDocumentFormattingEdits_resume document edits st).1.1
    = Returned res ∧ no_edit res = true.
Proof. intros Hy _ Hn. by apply resume_not_single_edit. Qed.

Lemma C8_malformed_response_no_edit_witness :
  ∃ res,
    (provideDocumentFormattingEdits_resume
       (yaml_document "file:///rule.yml" 1 indented_block)
       (Some [{| vscode.range := whole_document; vscode.newText := [97] |};
              {| vscode.range := whole_document; vscode.newText := [98] |}])
       empty_state).1.1
    = Returned res ∧ no_edit res = true.
Proof.
  apply (C8_malformed_response_no_edit empty_state
           (yaml_document "file:///rule.yml" 1 indented_block)
           {| startLine := 2; endLine := 2 |}).
  - reflexivity.
  - vm_compute; reflexivity.
  - simpl; lia.
Defined.

(** C4, as stated, fails: the document is opened, the formatting request
    passes the gate, the document is closed, and then the answer arrives.
    No entry is cached for the document at that point, yet the lookup
    computes the region again from the document's text and an edit comes
    back. *)
Lemma C4_edit_after_close :
  let document := yaml_document "file:///rule.yml" 1 one_line_block in
  let st1 := (didOpen document empty_state).1.2 in
  let gate := isInsideValidMQLRegion document None st1 in
  let st3 := (didClose document gate.1.2).1.2 in
  gate.1.1 = true
  ∧ embeddedMQLDocumentCache st3 !! vscode.uri document = None
  ∧ (provideDocumentFormattingEdits_resume document
       (Some [{| vscode.range := whole_document; vscode.newText := [97] |}])
       st3).1.1
    = Returned (Some
        [{| vscode.range :=
              {| vscode.start := {| vscode.line := 1; vscode.character := 0 |};
                 vscode.end_ := {| vscode.line := 1; vscode.character := 3 |} |};
            vscode.newText := [32; 32; 97] |}]).
Proof. repeat split; vm_compute; reflexivity. Qed.

(** C4, amended: when the region the lookup yields is absent, no edit is
    ever returned; and an answer of no edit or of two or more edits comes
    back as a result without an edit, nothing thrown. *)
Theorem C4_absent_region_no_edit st document edits :
  is_yaml document = true →
  lookup_region document st = None →
  (∀ res,
     (provideDocumentFormattingEdits_resume document edits st).1.1
     = Returned res → no_edit res = true)
  ∧ (edit_count edits ≠ 1%nat →
     ∃ res,
       (provideDocumentFormattingEdits_resume document edits st).1.1
       = Returned res ∧ no_edit res = true).
Proof.
  intros Hy Hr. split; [|by apply resume_not_single_edit].
  intros res Hres.
  destruct (decide (edit_count edits = 1%nat)) as [H1|Hn].
  - destruct edits as [[|e [|e' es]]|]; simpl in H1; try done.
    rewrite resume_single_edit in Hres by done. by rewrite Hr in Hres.
  - destruct (resume_not_single_edit st document edits Hy Hn) as (res' & E & ?).
    rewrite E in Hres. by inversion Hres; subst.
Qed.

Lemma C4_absent_region_no_edit_witness :
  ∃ res,
    (provideDocumentFormattingEdits_resume
       (yaml_document "file:///rule.yml" 1 (str "name: x"))
       (Some [{| vscode.range := whole_document; vscode.newText := [97] |};
              {| vscode.range := whole_document; vscode.newText := [98] |}])
       empty_state).1.1
    = Returned res ∧ no_edit res = true.
Proof.
  apply (C4_absent_region_no_edit empty_state
           (yaml_document "file:///rule.yml" 1 (str "name: x"))).
  - reflexivity.
  - vm_compute; reflexivity.
  - simpl; lia.
Defined.

(** * Further properties *)

(** ** The detector, characterised *)

Lemma in_block_not_ends contentIndent l :
  in_block contentIndent l = negb (ends_block contentIndent l).
Proof.
  unfold in_block, ends_block.
  destruct (is_blank l), (leadingSpaces l <? contentIndent)%nat; done.
Qed.

(** Any list of lines is a run of block lines and a rest the block does not
    go on with. *)
Lemma block_span contentIndent (ls : list jsstring) :
  ∃ block tail,
    ls = block ++ tail
    ∧ Forall (λ l, in_block contentIndent l = true) block
    ∧ block_ends contentIndent tail.
Proof.
  induction ls as [|l ls (block & tail & -> & Hb & Ht)].
  - by exists [], [].
  - destruct (in_block contentIndent l) eqn:E.
    + exists (l :: block), tail. by repeat split; [constructor|].
    + exists [], (l :: block ++ tail). repeat split; [constructor|].
      simpl. rewrite in_block_not_ends in E. by apply negb_false_iff in E.
Qed.

(** Either no line is a header, or there is a first one. *)
Lemma header_span (ls : list jsstring) :
  no_header ls
  ∨ ∃ pre header m1 rest,
      ls = pre ++ header :: rest ∧ no_header pre
      ∧ header_match header = Some m1.
Proof.
  induction ls as [|l ls IH].
  - left. constructor.
  - destruct (header_match l) as [m1|] eqn:E.
    + right. exists [], l, m1, ls. by repeat split; [constructor|].
    + destruct IH as [Hn|(pre & header & m1 & rest & -> & Hpre & Hh)].
      * left. by constructor.
      * right. exists (l :: pre), header, m1, rest.
        by repeat split; [constructor|].
Qed.

Lemma scan_lines_no_header len ls i :
  no_header ls → scan_lines len ls i = None.
Proof.
  intros H. revert i. induction H as [|l ls Hl _ IH]; intros i; simpl; [done|].
  by rewrite Hl.
Qed.

(** X1: the detector returns no region exactly when no line other than the
    last one is a header. *)
Theorem X1_no_region_iff text :
  detectMQLRegion text = None
  ↔ no_header (take (length (split_nl text) - 1) (split_nl text)).
Proof.
  unfold detectMQLRegion.
  destruct (header_span (split_nl text))
    as [Hn|(pre & header & m1 & rest & E & Hpre & Hh)].
  - split; [|by intros _; apply scan_lines_no_header].
    intros _. by apply Forall_take.
  - fold (detectMQLRegion text).
    rewrite (detectMQLRegion_first_header text pre header m1 rest) by done.
    rewrite E, length_app. simpl.
    destruct rest as [|l rest].
    + split; [intros _|done].
      replace (length pre + S (length (@nil jsstring)) - 1)%nat
        with (length pre) by (simpl; lia).
      rewrite (take_app_length pre [header]). apply Hpre.
    + split; [done|]. intros Hno. exfalso.
      unfold no_header in Hno. rewrite Forall_lookup in Hno.
      assert (header_match header = None); [|congruence].
      apply (Hno (length pre)).
      rewrite lookup_take_lt by (simpl; lia).
      by rewrite list_lookup_middle.
Qed.

Lemma X1_no_region_iff_witness :
  detectMQLRegion (str "name: x") = None.
Proof.
  apply (proj2 (X1_no_region_iff (str "name: x"))).
  vm_compute. constructor.
Defined.

(** X2: a region the detector returns starts right after the first header
    line of the text and runs over the block lines that follow it (blank,
    or indented by the header's indent plus two at least) up to the first
    line that is neither, or the end of the text; when no block line
    follows the header, the region is the one line after it. *)
Theorem X2_region_shape text r :
  detectMQLRegion text = Some r →
  ∃ pre header m1 block tail,
    split_nl text = pre ++ header :: block ++ tail
    ∧ no_header pre
    ∧ header_match header = Some m1
    ∧ Forall (λ l, in_block (length m1 + 2) l = true) block
    ∧ block_ends (length m1 + 2) tail
    ∧ block ++ tail ≠ []
    ∧ startLine r = (length pre + 1)%nat
    ∧ endLine r = (length pre + Nat.max 1 (length block))%nat.
Proof.
  intros Hr.
  destruct (header_span (split_nl text))
    as [Hn|(pre & header & m1 & rest & E & Hpre & Hh)].
  - unfold detectMQLRegion in Hr. by rewrite scan_lines_no_header in Hr.
  - rewrite (detectMQLRegion_first_header text pre header m1 rest) in Hr by done.
    destruct (block_span (length m1 + 2) rest) as (block & tail & -> & Hb & Ht).
    exists pre, header, m1, block, tail.
    destruct (block ++ tail) as [|l0 rest0] eqn:Eb; [done|].
    rewrite <- Eb in Hr. rewrite scan_block_block in Hr by done.
    injection Hr as <-. simpl.
    repeat split; try done.
    destruct block; simpl; lia.
Qed.

Lemma X2_region_shape_witness :
  ∃ pre header m1 block tail,
    split_nl scenario_text = pre ++ header :: block ++ tail
    ∧ no_header pre
    ∧ header_match header = Some m1
    ∧ Forall (λ l, in_block (length m1 + 2) l = true) block
    ∧ block_ends (length m1 + 2) tail
    ∧ block ++ tail ≠ []
    ∧ 2%nat = (length pre + 1)%nat
    ∧ 3%nat = (length pre + Nat.max 1 (length block))%nat.
Proof.
  apply (X2_region_shape scenario_text {| startLine := 2; endLine := 3 |}).
  vm_compute; reflexivity.
Defined.

(** ** The masker at its edges *)

(** The masked text depends on the region only through the lines of the
    text it covers. *)
Lemma maskDocument_ext text region1 region2 :
  (∀ i l, split_nl text !! i = Some l →
          masked_line region1 i l = masked_line region2 i l) →
  maskDocument text region1 = maskDocument text region2.
Proof.
  intros H.
  destruct (maskDocument_lines text region1) as (ml1 & -> & H1 & _).
  destruct (maskDocument_lines text region2) as (ml2 & -> & H2 & _).
  f_equal. apply list_eq. intros i. rewrite H1, H2.
  destruct (split_nl text !! i) as [l|] eqn:E; simpl; [|done].
  f_equal. by apply H.
Qed.

Lemma join_nl_empty_lines (ls : list jsstring) :
  join_nl (List.map (λ _, []) ls) = replicate (length ls - 1) LF.
Proof.
  induction ls as [|l ls IH]; [done|].
  destruct ls as [|l' ls]; [done|].
  change (join_nl (List.map (λ _, []) (l :: l' :: ls)))
    with (LF :: join_nl (List.map (λ _ : jsstring, @nil N) (l' :: ls))).
  rewrite IH. simpl. by rewrite Nat.sub_0_r.
Qed.

Lemma maskDocument_None text :
  maskDocument text None = replicate (length (split_nl text) - 1) LF.
Proof. apply join_nl_empty_lines. Qed.

(** X3: without a region the masked text is line feeds only, one fewer
    than the host text has lines. *)
Theorem X3_mask_without_region text :
  maskDocument text None = replicate (length (split_nl text) - 1) LF.
Proof. apply maskDocument_None. Qed.

(** X4: a region that starts past the last line of the text, or whose end
    lies before its start, masks like no region at all; nothing is read
    outside the text. *)
Theorem X4_mask_region_outside text r :
  (length (split_nl text) ≤ startLine r ∨ endLine r < startLine r)%nat →
  maskDocument text (Some r) = maskDocument text None.
Proof.
  intros H. apply maskDocument_ext. intros i l Hl.
  apply lookup_lt_Some in Hl. unfold masked_line.
  rewrite bool_decide_eq_false_2 by lia. done.
Qed.

Lemma X4_mask_region_outside_witness :
  maskDocument scenario_text (Some {| startLine := 6; endLine := 9 |})
  = maskDocument scenario_text None.
Proof.
  apply (X4_mask_region_outside scenario_text {| startLine := 6; endLine := 9 |}).
  left. vm_compute. lia.
Defined.

(** X5: a region that covers every line gives the text back unchanged,
    also when its end lies beyond the last line. *)
Theorem X5_mask_whole_text text r :
  startLine r = 0%nat →
  (length (split_nl text) - 1 ≤ endLine r)%nat →
  maskDocument text (Some r) = text.
Proof.
  intros Hs He.
  destruct (maskDocument_lines text (Some r)) as (ml & -> & Hl & _).
  rewrite <- (join_split text) at 1. f_equal. apply list_eq. intros i.
  rewrite Hl. destruct (split_nl text !! i) as [l|] eqn:E; simpl; [|done].
  apply lookup_lt_Some in E. rewrite bool_decide_eq_true_2 by lia. done.
Qed.

Lemma X5_mask_whole_text_witness :
  maskDocument scenario_text (Some {| startLine := 0; endLine := 7 |})
  = scenario_text.
Proof.
  apply (X5_mask_whole_text scenario_text {| startLine := 0; endLine := 7 |}).
  - reflexivity.
  - vm_compute. lia.
Defined.

(** X6: the position test and the masker agree: on the line of a position
    inside the region the masked text has the host's line, on the line of
    any other position it has the empty string. *)
Theorem X6_inside_iff_line_kept text region position :
  split_nl (maskDocument text region) !! vscode.line position
  = (λ l, if isInsideEmbeddedMQLRegion position region then l else [])
    <$> split_nl text !! vscode.line position.
Proof.
  rewrite maskDocument_split_lookup.
  destruct (split_nl text !! vscode.line position) as [l|]; simpl; [|done].
  f_equal. unfold masked_line, isInsideEmbeddedMQLRegion.
  destruct region as [r|]; [|done].
  destruct (Nat.leb_spec (startLine r) (vscode.line position));
    destruct (Nat.leb_spec (vscode.line position) (endLine r)); simpl;
    by (rewrite bool_decide_eq_true_2 by lia)
    || by (rewrite bool_decide_eq_false_2 by lia).
Qed.

(** ** The cache *)

(** X7: a lookup sends nothing, returns an entry with the document's
    version, leaves that entry in the cache, and a second lookup for the
    same document returns it again without changing anything. *)
Theorem X7_lookup_idempotent document st :
  let '(cache, st1, out) := getEmbeddedMQLCachedDocumentData document st in
  out = []
  ∧ version cache = vscode.version document
  ∧ embeddedMQLDocumentCache st1 !! vscode.uri document = Some cache
  ∧ getEmbeddedMQLCachedDocumentData document st1 = (cache, st1, []).
Proof.
  destruct (cache_hit (embeddedMQLDocumentCache st !! vscode.uri document)
              document) as [c|] eqn:E.
  - rewrite (getEmbedded_hit _ _ c) by done.
    assert (embeddedMQLDocumentCache st !! vscode.uri document = Some c
            ∧ version c = vscode.version document) as [Hc Hv].
    { unfold cache_hit in E.
      destruct (embeddedMQLDocumentCache st !! vscode.uri document) as [c'|];
        [|done].
      destruct (Z.eqb_spec (version c') (vscode.version document)); [|done].
      by injection E as <-. }
    repeat split; try done. by apply getEmbedded_hit.
  - rewrite getEmbedded_miss by done.
    repeat split; simpl.
    + apply lookup_insert_eq.
    + apply getEmbedded_hit. simpl. rewrite lookup_insert_eq.
      unfold cache_hit. simpl. by rewrite Z.eqb_refl.
Qed.

(** X8: a lookup leaves the entries of all other identities, the set of
    opened documents and the language id as they were. *)
Theorem X8_lookup_frame document st uri :
  uri ≠ vscode.uri document →
  let st1 := (getEmbeddedMQLCachedDocumentData document st).1.2 in
  embeddedMQLDocumentCache st1 !! uri = embeddedMQLDocumentCache st !! uri
  ∧ embeddedMQLOpenedYAMLDocuments st1 = embeddedMQLOpenedYAMLDocuments st
  ∧ languageID st1 = languageID st.
Proof.
  intros Hne.
  destruct (cache_hit (embeddedMQLDocumentCache st !! vscode.uri document)
              document) as [c|] eqn:E.
  - by rewrite (getEmbedded_hit _ _ c).
  - rewrite getEmbedded_miss by done. simpl.
    by rewrite lookup_insert_ne.
Qed.

Lemma X8_lookup_frame_witness :
  let document := yaml_document "file:///rule.yml" 1 scenario_text in
  let st1 := (getEmbeddedMQLCachedDocumentData document empty_state).1.2 in
  embeddedMQLDocumentCache st1 !! "file:///other.yml"
  = embeddedMQLDocumentCache empty_state !! "file:///other.yml"
  ∧ embeddedMQLOpenedYAMLDocuments st1
    = embeddedMQLOpenedYAMLDocuments empty_state
  ∧ languageID st1 = languageID empty_state.
Proof.
  apply (X8_lookup_frame (yaml_document "file:///rule.yml" 1 scenario_text)
           empty_state "file:///other.yml").
  simpl. discriminate.
Defined.

Lemma getEmbedded_wf document st :
  cache_wf st →
  cache_wf (getEmbeddedMQLCachedDocumentData document st).1.2
  ∧ ∃ text,
      region (getEmbeddedMQLCachedDocumentData document st).1.1
      = detectMQLRegion text
      ∧ maskedText (getEmbeddedMQLCachedDocumentData document st).1.1
        = maskDocument text (detectMQLRegion text).
Proof.
  intros Hwf.
  destruct (cache_hit (embeddedMQLDocumentCache st !! vscode.uri document)
              document) as [c|] eqn:E.
  - rewrite (getEmbedded_hit _ _ c) by done. simpl. split; [done|].
    unfold cache_hit in E.
    destruct (embeddedMQLDocumentCache st !! vscode.uri document) as [c'|] eqn:Ec;
      [|done].
    destruct (version c' =? vscode.version document)%Z; [|done].
    injection E as <-. destruct (Hwf _ _ Ec) as (t & Hr & Hm).
    exists t. split; [done|]. by rewrite Hm, Hr.
  - rewrite getEmbedded_miss by done. simpl. split.
    + intros u c. simpl.
      destruct (decide (u = vscode.uri document)) as [->|Hne].
      * rewrite lookup_insert_eq. intros [= <-]. by eexists.
      * rewrite lookup_insert_ne by done. apply Hwf.
    + by eexists.
Qed.

(** ** The handlers as transitions *)

Lemma didOpen_eq document st :
  didOpen document st =
    if negb (is_yaml document) then ((), st, [next_didOpen document])
    else if bool_decide (vscode.uri document ∈ embeddedMQLOpenedYAMLDocuments st)
    then ((), st, [])
    else
      let r := getEmbeddedMQLCachedDocumentData document st in
      match region r.1.1 with
      | None => ((), r.1.2, [])
      | Some _ =>
          ((), with_opened (vscode.uri document) r.1.2,
           [sendNotification_didOpen (vscode.uri document) (languageID st)
              (vscode.version document) (maskedText r.1.1)])
      end.
Proof.
  unfold didOpen. destruct (is_yaml document); simpl; [|done].
  step_M. case_bool_decide; [done|].
  destruct (getEmbedded_frame document st) as (Ho & _ & Hl).
  destruct (getEmbeddedMQLCachedDocumentData document st) as [[c st1] out].
  simpl in *. subst out.
  destruct (region c); simpl; by rewrite ?Hl.
Qed.

Lemma didChange_eq document st :
  didChange document st =
    if negb (is_yaml document) then ((), st, [next_didChange document])
    else
      let r := getEmbeddedMQLCachedDocumentData document st in
      if bool_decide (vscode.uri document ∈ embeddedMQLOpenedYAMLDocuments st)
      then ((), r.1.2,
            [sendNotification_didChange (vscode.uri document)
               (vscode.version document) (maskedText r.1.1)])
      else
        match region r.1.1 with
        | None => ((), r.1.2, [])
        | Some _ =>
            ((), with_opened (vscode.uri document) r.1.2,
             [sendNotification_didOpen (vscode.uri document) (languageID st)
                (vscode.version document) (maskedText r.1.1)])
        end.
Proof.
  unfold didChange. destruct (is_yaml document); simpl; [|done].
  step_M.
  destruct (getEmbedded_frame document st) as (Ho & Hs & Hl).
  destruct (getEmbeddedMQLCachedDocumentData document st) as [[c st1] out].
  simpl in *. subst out. rewrite Hs.
  destruct (bool_decide
              (vscode.uri document ∈ embeddedMQLOpenedYAMLDocuments st));
    destruct (region c) as [r|]; simpl;
    rewrite ?(bool_decide_eq_true_2 (is_Some (Some r))) by done;
    rewrite ?(bool_decide_eq_false_2 (is_Some None)) by (by intros [? ?]);
    simpl; by rewrite ?Hl.
Qed.

Lemma didClose_eq document st :
  didClose document st =
    if is_yaml document
    then ((), without_entry (vscode.uri document)
                (without_opened (vscode.uri document) st),
          [next_didClose document])
    else ((), st, [next_didClose document]).
Proof. unfold didClose. by destruct (is_yaml document). Qed.

Lemma run_cons ev evs st :
  run (ev :: evs) st =
    ((run evs (handle ev st).1.2).1,
     (handle ev st).2 :: (run evs (handle ev st).1.2).2).
Proof.
  simpl. destruct (handle ev st) as [[[] st1] out]. simpl.
  by destruct (run evs st1).
Qed.

Lemma service_run_app open cs1 cs2 :
  service_run open (cs1 ++ cs2) =
    match service_run open cs1 with
    | Some open' => service_run open' cs2
    | None => None
    end.
Proof.
  revert open. induction cs1 as [|c cs1 IH]; intros open; simpl; [done|].
  by destruct (service_step open c).
Qed.

(** ** Invariants of the lifecycle *)

Lemma handle_wf ev st : cache_wf st → cache_wf (handle ev st).1.2.
Proof.
  intros Hwf. destruct (getEmbedded_wf (event_document ev) st Hwf) as [Hwf1 _].
  destruct ev as [d|d|d]; simpl in *.
  - rewrite didOpen_eq. destruct (is_yaml d); simpl; [|done].
    case_bool_decide; [done|].
    by destruct (region _).
  - rewrite didChange_eq. destruct (is_yaml d); simpl; [|done].
    case_bool_decide; [done|]. by destruct (region _).
  - rewrite didClose_eq. destruct (is_yaml d); simpl; [|done].
    intros u c Hc. simpl in Hc.
    apply lookup_delete_Some in Hc as [_ Hc]. by apply (Hwf u).
Qed.

(** X9: the entries of the cache stay entries computed by the detector and
    the masker through every sequence of host events; so every cached
    region has [1 <= startLine <= endLine]. *)
Theorem X9_cache_wf_run evs st :
  cache_wf st →
  cache_wf (run evs st).1
  ∧ ∀ uri cache r,
      embeddedMQLDocumentCache (run evs st).1 !! uri = Some cache →
      region cache = Some r →
      (1 ≤ startLine r ∧ startLine r ≤ endLine r)%nat.
Proof.
  intros Hwf.
  assert (cache_wf (run evs st).1) as Hwf'.
  { revert st Hwf. induction evs as [|ev evs IH]; intros st Hwf; [done|].
    rewrite run_cons. simpl. by apply IH, handle_wf. }
  split; [done|]. intros u c r Hc Hr.
  destruct (Hwf' _ _ Hc) as (t & Ht & _). rewrite Hr in Ht.
  destruct (detectMQLRegion_bounds t r (eq_sym Ht)) as (? & ? & _). done.
Qed.

Lemma empty_state_wf : cache_wf empty_state.
Proof. intros u c Hc. simpl in Hc. by rewrite lookup_empty in Hc. Qed.

Lemma X9_cache_wf_run_witness :
  cache_wf (run [HostOpen (yaml_document "file:///rule.yml" 1 scenario_text)]
              empty_state).1
  ∧ ∀ uri cache r,
      embeddedMQLDocumentCache
        (run [HostOpen (yaml_document "file:///rule.yml" 1 scenario_text)]
           empty_state).1 !! uri = Some cache →
      region cache = Some r →
      (1 ≤ startLine r ∧ startLine r ≤ endLine r)%nat.
Proof.
  apply (X9_cache_wf_run
           [HostOpen (yaml_document "file:///rule.yml" 1 scenario_text)]
           empty_state).
  intros u c Hc. simpl in Hc. by rewrite lookup_empty in Hc.
Defined.

Lemma handle_service ev st :
  service_run (embeddedMQLOpenedYAMLDocuments st) (handle ev st).2
  = Some (embeddedMQLOpenedYAMLDocuments (handle ev st).1.2).
Proof.
  destruct (getEmbedded_frame (event_document ev) st) as (_ & Hs & _).
  destruct ev as [d|d|d]; simpl in *.
  - rewrite didOpen_eq. destruct (is_yaml d) eqn:Hy; simpl; [|done].
    case_bool_decide as Ho; [done|].
    destruct (region _); simpl; [|by rewrite Hs].
    rewrite bool_decide_eq_false_2 by done. by rewrite Hs.
  - rewrite didChange_eq. destruct (is_yaml d) eqn:Hy; simpl; [|done].
    case_bool_decide as Ho; simpl.
    + rewrite bool_decide_eq_true_2 by done. by rewrite Hs.
    + destruct (region _); simpl; [|by rewrite Hs].
      rewrite bool_decide_eq_false_2 by done. by rewrite Hs.
  - rewrite didClose_eq. destruct (is_yaml d) eqn:Hy; simpl; by rewrite Hy.
Qed.

Lemma run_service evs st :
  service_run (embeddedMQLOpenedYAMLDocuments st) (concat (run evs st).2)
  = Some (embeddedMQLOpenedYAMLDocuments (run evs st).1).
Proof.
  revert st. induction evs as [|ev evs IH]; intros st; [done|].
  rewrite run_cons. simpl. rewrite service_run_app, handle_service. apply IH.
Qed.

(** X10: whatever the host events, the notifications sent are accepted by
    the service in order (no [didChange] for a document not open there, no
    second [didOpen] for one that is), and the set of opened documents is
    at every point the set the service holds open. *)
Theorem X10_opened_mirrors_service evs st :
  service_run (embeddedMQLOpenedYAMLDocuments st) (concat (run evs st).2)
  = Some (embeddedMQLOpenedYAMLDocuments (run evs st).1).
Proof.
  revert st. induction evs as [|ev evs IH]; intros st; [done|].
  rewrite run_cons. simpl.
  rewrite service_run_app, handle_service. apply IH.
Qed.

(** X11: events on documents that are not YAML pass through: each is
    handed to [next] as it came and the module state does not change. *)
Theorem X11_other_languages_pass_through evs st :
  Forall (λ ev, is_yaml (event_document ev) = false) evs →
  run evs st = (st, List.map (λ ev, [forwarded ev]) evs).
Proof.
  intros H. induction H as [|ev evs Hev _ IH]; [done|].
  rewrite run_cons.
  assert (handle ev st = ((), st, [forwarded ev])) as ->.
  { destruct ev as [d|d|d]; simpl in *.
    - rewrite didOpen_eq. by rewrite Hev.
    - rewrite didChange_eq. by rewrite Hev.
    - rewrite didClose_eq. by rewrite Hev. }
  simpl. by rewrite IH.
Qed.

Lemma X11_other_languages_pass_through_witness :
  let d := {| vscode.uri := "file:///rule.mql"; vscode.languageId := "mql";
              vscode.version := 1; vscode.getText := scenario_text |} in
  run [HostOpen d; HostChange d; HostClose d] empty_state
  = (empty_state, [[next_didOpen d]; [next_didChange d]; [next_didClose d]]).
Proof.
  intros d.
  apply (X11_other_languages_pass_through
           [HostOpen d; HostChange d; HostClose d] empty_state).
  repeat constructor.
Defined.

Lemma handle_payload ev st :
  cache_wf st →
  Forall (masked_payload (languageID st)) (handle ev st).2
  ∧ languageID (handle ev st).1.2 = languageID st.
Proof.
  intros Hwf.
  destruct (getEmbedded_wf (event_document ev) st Hwf) as [_ (t & Hr & Hm)].
  destruct (getEmbedded_frame (event_document ev) st) as (_ & _ & Hl).
  assert (∃ t, maskedText
                 (getEmbeddedMQLCachedDocumentData (event_document ev) st).1.1
               = maskDocument t (detectMQLRegion t)) as Hp by by exists t.
  destruct ev as [d|d|d]; simpl in *.
  - rewrite didOpen_eq. destruct (is_yaml d); simpl; [|by repeat constructor].
    case_bool_decide; [by repeat constructor|].
    destruct (region _); simpl; by repeat constructor.
  - rewrite didChange_eq. destruct (is_yaml d); simpl; [|by repeat constructor].
    case_bool_decide; [by repeat constructor|].
    destruct (region _); simpl; by repeat constructor.
  - rewrite didClose_eq. destruct (is_yaml d); simpl; by repeat constructor.
Qed.

Lemma run_payload evs st :
  cache_wf st →
  Forall (masked_payload (languageID st)) (concat (run evs st).2)
  ∧ languageID (run evs st).1 = languageID st.
Proof.
  revert st. induction evs as [|ev evs IH]; intros st Hwf.
  - split; [constructor|done].
  - rewrite run_cons. simpl.
    destruct (handle_payload ev st Hwf) as [Hp Hl].
    destruct (IH _ (handle_wf ev st Hwf)) as [Hps Hls].
    rewrite Hl in Hps, Hls. split; [|done].
    apply Forall_app. by split.
Qed.

(** X12: from a state whose cache the module has filled itself, every text
    sent to the service, in a [didOpen] or a [didChange], is a masked text
    (the masker's output for some text and the region detected in it), and
    every [didOpen] names the language id of the module state, which the
    events do not change. *)
Theorem X12_only_masked_text_sent evs st :
  cache_wf st →
  Forall (masked_payload (languageID st)) (concat (run evs st).2)
  ∧ languageID (run evs st).1 = languageID st.
Proof.
  revert st. induction evs as [|ev evs IH]; intros st Hwf.
  - split; [constructor|done].
  - rewrite run_cons. simpl.
    destruct (handle_payload ev st Hwf) as [Hp Hl].
    destruct (IH _ (handle_wf ev st Hwf)) as [Hps Hls].
    rewrite Hl in Hps, Hls. split; [|done].
    apply Forall_app. by split.
Qed.

Lemma X12_only_masked_text_sent_witness :
  let d := yaml_document "file:///rule.yml" 1 scenario_text in
  Forall (masked_payload (languageID empty_state))
    (concat (run [HostOpen d; HostChange d] empty_state).2)
  ∧ languageID (run [HostOpen d; HostChange d] empty_state).1
    = languageID empty_state.
Proof.
  intros d.
  apply (X12_only_masked_text_sent [HostOpen d; HostChange d] empty_state).
  intros u c Hc. simpl in Hc. by rewrite lookup_empty in Hc.
Defined.

(** X13: close forgets the document: after the close of a YAML document,
    an open of the same identity starts from its text again, whatever the
    version numbers and whatever was cached or opened before; with a region
    it sends one [didOpen] with the freshly masked text. *)
Theorem X13_reopen_after_close st d d' :
  is_yaml d = true →
  is_yaml d' = true →
  vscode.uri d' = vscode.uri d →
  (run [HostClose d; HostOpen d'] st).2
  = [ [next_didClose d];
      match detectMQLRegion (vscode.getText d') with
      | Some r =>
          [sendNotification_didOpen (vscode.uri d) (languageID st)
             (vscode.version d')
             (maskDocument (vscode.getText d') (Some r))]
      | None => []
      end ].
Proof.
  intros Hy Hy' Hu. rewrite !run_cons. simpl.
  rewrite didClose_eq, Hy. simpl. f_equal.
  rewrite didOpen_eq, Hy', Hu. simpl.
  rewrite bool_decide_eq_false_2
    by (rewrite elem_of_difference, elem_of_singleton; tauto).
  rewrite getEmbedded_miss by (simpl; by rewrite Hu, lookup_delete_eq).
  simpl. by destruct (detectMQLRegion (vscode.getText d')).
Qed.

Lemma X13_reopen_after_close_witness :
  let d := yaml_document "file:///rule.yml" 7 scenario_text in
  let st := (run [HostOpen d] empty_state).1 in
  (run [HostClose d; HostOpen d] st).2
  = [ [next_didClose d];
      match detectMQLRegion (vscode.getText d) with
      | Some r =>
          [sendNotification_didOpen (vscode.uri d) (languageID st)
             (vscode.version d) (maskDocument (vscode.getText d) (Some r))]
      | None => []
      end ].
Proof.
  intros d st. apply (X13_reopen_after_close st d d); reflexivity.
Defined.

(** X14: when the region disappears from a document that is open on the
    service, the change is still sent as a [didChange]; its text is line
    feeds only, and the document stays in the set of opened documents. *)
Theorem X14_region_removed_sends_blank st d :
  is_yaml d = true →
  vscode.uri d ∈ embeddedMQLOpenedYAMLDocuments st →
  cache_hit (embeddedMQLDocumentCache st !! vscode.uri d) d = None →
  detectMQLRegion (vscode.getText d) = None →
  (didChange d st).2
  = [sendNotification_didChange (vscode.uri d) (vscode.version d)
       (replicate (length (split_nl (vscode.getText d)) - 1) LF)]
  ∧ vscode.uri d ∈ embeddedMQLOpenedYAMLDocuments (didChange d st).1.2.
Proof.
  intros Hy Ho Hc Hr. rewrite didChange_yaml_opened by done. simpl.
  by rewrite Hr, maskDocument_None.
Qed.

Lemma X14_region_removed_sends_blank_witness :
  let d1 := yaml_document "file:///rule.yml" 1 scenario_text in
  let d2 := yaml_document "file:///rule.yml" 2 (str "name: x") in
  let st := (run [HostOpen d1] empty_state).1 in
  (didChange d2 st).2
  = [sendNotification_didChange (vscode.uri d2) (vscode.version d2)
       (replicate (length (split_nl (vscode.getText d2)) - 1) LF)]
  ∧ vscode.uri d2 ∈ embeddedMQLOpenedYAMLDocuments (didChange d2 st).1.2.
Proof.
  intros d1 d2 st. apply (X14_region_removed_sends_blank st d2).
  - reflexivity.
  - apply (bool_decide_unpack _). vm_compute. exact I.
  - vm_compute; reflexivity.
  - vm_compute; reflexivity.
Defined.

(** ** The formatting provider, further *)

Lemma no_lf_app (a b : jsstring) : no_lf a → no_lf b → no_lf (a ++ b).
Proof. unfold no_lf. rewrite elem_of_app. tauto. Qed.

(** X16: for a YAML document whose cached region is the region of its
    text, whatever the service answers, the provider returns at most one
    edit, and that edit replaces the lines of the region and nothing else:
    it runs from column 0 of [startLine] to the end of [endLine], both lines
    of the document after its first. *)
Theorem X16_yaml_edit_confined st document edits es :
  is_yaml document = true →
  lookup_region document st = detectMQLRegion (vscode.getText document) →
  (provideDocumentFormattingEdits_resume document edits st).1.1
  = Returned (Some es) →
  es = []
  ∨ ∃ r e endLineText,
      detectMQLRegion (vscode.getText document) = Some r
      ∧ es = [e]
      ∧ vscode.lineAt document (Z.of_nat (endLine r)) = Some endLineText
      ∧ vscode.range e
        = {| vscode.start :=
               {| vscode.line := startLine r; vscode.character := 0 |};
             vscode.end_ :=
               {| vscode.line := endLine r;
                  vscode.character := length endLineText |} |}
      ∧ (1 ≤ startLine r ∧ startLine r ≤ endLine r
         ∧ endLine r < length (split_nl (vscode.getText document)))%nat.
Proof.
  intros Hy Hc Hres.
  destruct (decide (edit_count edits = 1%nat)) as [H1|Hn].
  - destruct edits as [[|e0 [|e' es']]|]; simpl in H1; try done.
    rewrite resume_single_edit in Hres by done. rewrite Hc in Hres.
    destruct (detectMQLRegion (vscode.getText document)) as [r|] eqn:Hd;
      [|done].
    destruct (vscode.lineAt document (Z.of_nat (startLine r) - 1)); [|done].
    destruct (vscode.lineAt document (Z.of_nat (endLine r))) as [el|] eqn:He;
      [|done].
    destruct (detectMQLRegion_bounds _ _ Hd) as (? & ? & ?).
    injection Hres as <-. right. eexists r, _, el.
    repeat split; try done. simpl. by apply mkRange_ordered.
  - destruct (resume_not_single_edit st document edits Hy Hn) as (res & E & Hno).
    rewrite E in Hres. injection Hres as ->.
    left. by destruct es.
Qed.

Lemma X16_yaml_edit_confined_witness :
  let d := yaml_document "file:///rule.yml" 1 indented_block in
  let e := {| vscode.range :=
                {| vscode.start := {| vscode.line := 2; vscode.character := 0 |};
                   vscode.end_ := {| vscode.line := 2; vscode.character := 5 |} |};
              vscode.newText := [32; 32; 32; 32; 97] |} in
  [e] = []
  ∨ ∃ r e' endLineText,
      detectMQLRegion (vscode.getText d) = Some r
      ∧ [e] = [e']
      ∧ vscode.lineAt d (Z.of_nat (endLine r)) = Some endLineText
      ∧ vscode.range e'
        = {| vscode.start :=
               {| vscode.line := startLine r; vscode.character := 0 |};
             vscode.end_ :=
               {| vscode.line := endLine r;
                  vscode.character := length endLineText |} |}
      ∧ (1 ≤ startLine r ∧ startLine r ≤ endLine r
         ∧ endLine r < length (split_nl (vscode.getText d)))%nat.
Proof.
  intros d e.
  apply (X16_yaml_edit_confined empty_state d
           (Some [{| vscode.range := whole_document; vscode.newText := [97] |}])).
  - reflexivity.
  - vm_compute; reflexivity.
  - vm_compute; reflexivity.
Defined.

(** X17: the gate of the provider.  For a document that is not YAML the
    service's answer is returned as it is and the module state is not
    touched; for a YAML document without a region the result is
    [undefined] whatever the service would answer. *)
Theorem X17_formatting_gate st document edits :
  (is_yaml document = false →
   provideDocumentFormattingEdits document edits st = (Returned edits, st, []))
  ∧ (is_yaml document = true →
     lookup_region document st = None →
     (provideDocumentFormattingEdits document edits st).1.1 = Returned None).
Proof.
  split.
  - intros Hy.
    unfold provideDocumentFormattingEdits, isInsideValidMQLRegion,
      provideDocumentFormattingEdits_resume.
    rewrite Hy. by destruct edits as [[|e es]|].
  - intros Hy Hr. rewrite provideDocumentFormattingEdits_gate by done.
    by rewrite Hr.
Qed.

Lemma X17_formatting_gate_witness :
  let edits := Some [{| vscode.range := whole_document;
                        vscode.newText := [97] |}] in
  let mql := {| vscode.uri := "file:///rule.mql"; vscode.languageId := "mql";
                vscode.version := 1; vscode.getText := [97] |} in
  provideDocumentFormattingEdits mql edits empty_state
  = (Returned edits, empty_state, [])
  ∧ (provideDocumentFormattingEdits
       (yaml_document "file:///rule.yml" 1 (str "name: x")) edits
       empty_state).1.1
    = Returned None.
Proof.
  intros edits mql. split.
  - apply (proj1 (X17_formatting_gate empty_state mql edits)). reflexivity.
  - apply (proj2 (X17_formatting_gate empty_state
                    (yaml_document "file:///rule.yml" 1 (str "name: x"))
                    edits)).
    + reflexivity.
    + vm_compute; reflexivity.
Defined.

(** X18: the position gate.  It answers with the position test on the
    looked-up region; so for a YAML document whose cached region is the
    region of its text, a position it lets through is on a line of the
    document, and never on line 0. *)
Theorem X18_position_gate st document position :
  is_yaml document = true →
  lookup_region document st = detectMQLRegion (vscode.getText document) →
  (isInsideValidMQLRegion document (Some position) st).1.1
  = isInsideEmbeddedMQLRegion position
      (detectMQLRegion (vscode.getText document))
  ∧ ((isInsideValidMQLRegion document (Some position) st).1.1 = true →
     (1 ≤ vscode.line position
      ∧ vscode.line position < length (split_nl (vscode.getText document)))%nat).
Proof.
  intros Hy Hc.
  assert ((isInsideValidMQLRegion document (Some position) st).1.1
          = isInsideEmbeddedMQLRegion position
              (detectMQLRegion (vscode.getText document))) as E.
  { rewrite <- Hc. unfold isInsideValidMQLRegion, lookup_region.
    rewrite Hy. step_M.
    by destruct (getEmbeddedMQLCachedDocumentData document st) as [[c st1] out]. }
  split; [done|]. rewrite E. unfold isInsideEmbeddedMQLRegion.
  destruct (detectMQLRegion (vscode.getText document)) as [r|] eqn:Hd; [|done].
  destruct (detectMQLRegion_bounds _ _ Hd) as (? & ? & ?).
  intros [?%Nat.leb_le ?%Nat.leb_le]%andb_true_iff. lia.
Qed.

Lemma X18_position_gate_witness :
  let d := yaml_document "file:///rule.yml" 1 scenario_text in
  let p := {| vscode.line := 3; vscode.character := 1 |} in
  (isInsideValidMQLRegion d (Some p) empty_state).1.1
  = isInsideEmbeddedMQLRegion p (detectMQLRegion (vscode.getText d))
  ∧ ((isInsideValidMQLRegion d (Some p) empty_state).1.1 = true →
     (1 ≤ vscode.line p
      ∧ vscode.line p < length (split_nl (vscode.getText d)))%nat).
Proof.
  intros d p. apply (X18_position_gate empty_state d p).
  - reflexivity.
  - vm_compute; reflexivity.
Defined.

(** ** [extractComment] *)

Lemma skip_ws_fixed c s : is_space c = false → skip_ws (c :: s) = c :: s.
Proof. intros H. simpl. by rewrite H. Qed.

Lemma skip_ws_idem s : skip_ws (skip_ws s) = skip_ws s.
Proof.
  destruct (skip_ws s) as [|c t] eqn:E; [done|].
  apply skip_ws_head in E. by apply skip_ws_fixed.
Qed.

(** Skipping whitespace in front of a string that ends with another
    character leaves a string that ends with that character. *)
Lemma skip_ws_snoc s x :
  is_space x = false → ∃ q, skip_ws (s ++ [x]) = q ++ [x].
Proof.
  intros Hx. induction s as [|c s [q IH]]; simpl.
  - rewrite Hx. by exists [].
  - destruct (is_space c); [by exists q|]. by exists (c :: s).
Qed.

Lemma trim_idem s : trim (trim s) = trim s.
Proof.
  unfold trim.
  assert (skip_ws (rev (skip_ws (rev (skip_ws s))))
          = rev (skip_ws (rev (skip_ws s)))) as ->.
  { destruct (skip_ws s) as [|x a] eqn:Ea; [done|].
    pose proof (skip_ws_head _ _ _ Ea) as Hx.
    change (rev (x :: a)) with (rev a ++ [x]).
    destruct (skip_ws_snoc (rev a) x Hx) as [q ->].
    rewrite rev_app_distr. simpl. by rewrite Hx. }
  rewrite rev_involutive. by rewrite skip_ws_idem.
Qed.

Lemma trim_spaces s : forallb is_space s = true → trim s = [].
Proof. intros H. unfold trim. by rewrite (proj2 (skip_ws_nil s) H). Qed.

(** X19: a comment [extractComment] returns is trimmed: trimming it again
    changes nothing, so it neither starts nor ends with whitespace. *)
Theorem X19_extractComment_trimmed lineText comment :
  extractComment lineText = Some comment → trim comment = comment.
Proof.
  unfold extractComment.
  destruct (strip_prefix _ _) as [after|]; [|done].
  destruct (ws_star_dot_plus_end after) as [[|c m1]|]; try done.
  intros [= <-]. apply trim_idem.
Qed.

Lemma X19_extractComment_trimmed_witness :
  trim (str "sender is new") = str "sender is new".
Proof.
  apply (X19_extractComment_trimmed (str "  //  sender is new  ")).
  vm_compute; reflexivity.
Defined.

Lemma dot_plus_end_None_app a b :
  b ≠ [] → dot_plus_end b = None → dot_plus_end (a ++ b) = None.
Proof.
  intros Hne Hb. unfold dot_plus_end in *.
  destruct b as [|c b]; [done|].
  destruct (forallb _ (c :: b)) eqn:E; [done|].
  destruct (a ++ c :: b) as [|y r] eqn:Ea; [done|].
  rewrite <- Ea, forallb_app, E. by rewrite andb_false_r.
Qed.

Lemma ws_star_dot_plus_end_body w c body :
  forallb is_space w = true →
  is_space c = false →
  ws_star_dot_plus_end (w ++ c :: body) = dot_plus_end (c :: body).
Proof.
  intros Hw Hc. induction w as [|x w IH].
  - simpl. by rewrite Hc.
  - apply andb_true_iff in Hw as [Hx Hw].
    change ((x :: w) ++ c :: body) with (x :: (w ++ c :: body)).
    cbn [ws_star_dot_plus_end]. rewrite Hx, IH by done.
    destruct (dot_plus_end (c :: body)) eqn:E; [done|].
    by apply (dot_plus_end_None_app (x :: w)).
Qed.

(** When only whitespace follows the slashes, the star gives its last
    character back to the group, if the dot can match it. *)
Lemma ws_star_dot_plus_end_spaces w :
  forallb is_space w = true →
  ws_star_dot_plus_end w =
    match last w with
    | Some c => if is_line_terminator c then None else Some [c]
    | None => None
    end.
Proof.
  intros Hw. induction w as [|x w IH]; [done|].
  apply andb_true_iff in Hw as [Hx Hw].
  cbn [ws_star_dot_plus_end]. rewrite Hx, IH by done.
  destruct w as [|y w].
  - simpl. by destruct (is_line_terminator x).
  - change (last (x :: y :: w)) with (last (y :: w)).
    destruct (last (y :: w)) as [c|] eqn:El.
    + destruct (is_line_terminator c) eqn:Ec; [|done].
      apply last_Some in El as [l' El].
      change (x :: y :: w) with ([x] ++ y :: w). rewrite El.
      rewrite (assoc_L (++)).
      apply dot_plus_end_None_app; [done|].
      unfold dot_plus_end. simpl. by rewrite Ec.
    + by apply last_None in El.
Qed.

Lemma skip_ws_slashes ws rest :
  forallb is_space ws = true →
  skip_ws (ws ++ str "//" ++ rest) = str "//" ++ rest.
Proof.
  intros Hws.
  change (str "//" ++ rest) with (47 :: 47 :: rest).
  by destruct (ws_run_unique ws 47 (47 :: rest) Hws eq_refl) as [_ ->].
Qed.

(** X20: on a line made of whitespace, two slashes, whitespace and then
    text that starts with a character other than whitespace and holds no
    line terminator, [extractComment] returns that text, trimmed. *)
Theorem X20_extractComment_text ws w c body :
  forallb is_space ws = true →
  forallb is_space w = true →
  is_space c = false →
  forallb (λ c, negb (is_line_terminator c)) (c :: body) = true →
  extractComment (ws ++ str "//" ++ w ++ c :: body) = Some (trim (c :: body)).
Proof.
  intros Hws Hw Hc Hb. unfold extractComment.
  rewrite skip_ws_slashes by done.
  rewrite (proj2 (strip_prefix_Some _ _ (w ++ c :: body))) by done.
  rewrite ws_star_dot_plus_end_body by done.
  unfold dot_plus_end. by rewrite Hb.
Qed.

Lemma X20_extractComment_text_witness :
  extractComment (str "  " ++ str "//" ++ str " " ++ 115 :: str "ender is new ")
  = Some (trim (115 :: str "ender is new ")).
Proof.
  apply (X20_extractComment_text (str "  ") (str " ") 115 (str "ender is new "));
    vm_compute; reflexivity.
Defined.

(** X21: when only whitespace follows the two slashes, the result is the
    empty string, not [null], provided there is some whitespace and its last
    character is not a line terminator; two slashes alone, or whitespace
    that ends in a line terminator, give [null]. *)
Theorem X21_extractComment_blank ws w :
  forallb is_space ws = true →
  forallb is_space w = true →
  extractComment (ws ++ str "//" ++ w) =
    match last w with
    | Some c => if is_line_terminator c then None else Some []
    | None => None
    end.
Proof.
  intros Hws Hw. unfold extractComment.
  rewrite skip_ws_slashes by done.
  rewrite (proj2 (strip_prefix_Some _ _ w)) by done.
  rewrite ws_star_dot_plus_end_spaces by done.
  destruct (last w) as [c|] eqn:El; [|done].
  destruct (is_line_terminator c); [done|].
  f_equal. apply trim_spaces. simpl. rewrite andb_true_r.
  rewrite forallb_forall in Hw. apply Hw, list_elem_of_In.
  apply last_Some in El as [l' ->].
  apply elem_of_app. right. apply elem_of_cons. by left.
Qed.

Lemma X21_extractComment_blank_witness :
  extractComment (str "" ++ str "//" ++ str " ") = Some [].
Proof.
  apply (X21_extractComment_blank (str "") (str " ")); reflexivity.
Defined.

(** ** Carriage returns at line ends *)

Lemma forallb_is_space_cr l :
  forallb is_space (l ++ [CR]) = forallb is_space l.
Proof. rewrite forallb_app. simpl. by rewrite andb_true_r. Qed.

Lemma skip_ws_cr l :
  forallb is_space l = false → skip_ws (l ++ [CR]) = skip_ws l ++ [CR].
Proof.
  induction l as [|c l IH]; simpl; [done|].
  destruct (is_space c); simpl; [apply IH|done].
Qed.

Lemma leading_ws_cr l :
  forallb is_space l = false → leading_ws (l ++ [CR]) = leading_ws l.
Proof.
  induction l as [|c l IH]; simpl; [done|].
  destruct (is_space c); simpl; [|done]. intros H. by rewrite IH.
Qed.

Lemma strip_prefix_cr p s :
  CR ∉ p →
  strip_prefix p (s ++ [CR]) = (λ r, r ++ [CR]) <$> strip_prefix p s.
Proof.
  revert s. induction p as [|a p IH]; intros s Hp; simpl; [done|].
  apply not_elem_of_cons in Hp as [Ha Hp].
  destruct s as [|c s]; simpl.
  - destruct (N.eqb_spec a CR) as [->|]; done.
  - destruct (a =? c); [by apply IH|done].
Qed.

Lemma header_match_cr l : header_match (l ++ [CR]) = header_match l.
Proof.
  unfold header_match.
  destruct (forallb is_space l) eqn:El.
  - rewrite (proj2 (skip_ws_nil (l ++ [CR]))) by by rewrite forallb_is_space_cr.
    by rewrite (proj2 (skip_ws_nil l)).
  - rewrite skip_ws_cr, leading_ws_cr by done.
    rewrite strip_prefix_cr.
    2:{ vm_compute. intros H.
        repeat (apply elem_of_cons in H as [H|H]; [discriminate|]).
        by apply elem_of_nil in H. }
    destruct (strip_prefix (str "source:") (skip_ws l)) as [r|]; simpl; [|done].
    destruct (forallb is_space r) eqn:Er.
    + rewrite (proj2 (skip_ws_nil (r ++ [CR]))) by by rewrite forallb_is_space_cr.
      by rewrite (proj2 (skip_ws_nil r)).
    + rewrite skip_ws_cr by done.
      destruct (skip_ws r) as [|c after]; simpl.
      * reflexivity.
      * destruct (is_block_indicator c); [|done].
        assert (forallb is_space (skip_chomping (after ++ [CR]))
                = forallb is_space (skip_chomping after)) as ->; [|done].
        destruct after as [|d a]; [done|]. simpl.
        destruct (is_chomping d); [apply forallb_is_space_cr|].
        simpl. f_equal. apply forallb_is_space_cr.
Qed.

Lemma in_block_cr contentIndent l :
  in_block contentIndent (l ++ [CR]) = in_block contentIndent l.
Proof.
  unfold in_block, leadingSpaces. rewrite !is_blank_forallb.
  rewrite forallb_is_space_cr.
  destruct (forallb is_space l) eqn:E; [done|]. by rewrite leading_ws_cr.
Qed.

Lemma scan_block_cr contentIndent rest rest' j e :
  Forall2 cr_variant rest rest' →
  scan_block contentIndent rest' j e = scan_block contentIndent rest j e.
Proof.
  intros H. revert j e.
  induction H as [|l l' rest rest' Hl _ IH]; intros j e; simpl; [done|].
  assert (is_blank l' = is_blank l
          ∧ (is_blank l = false → leadingSpaces l' = leadingSpaces l))
    as [-> Hlead].
  { destruct Hl as [->| ->]; [done|].
    rewrite !is_blank_forallb, forallb_is_space_cr. split; [done|].
    intros Hb. unfold leadingSpaces. by rewrite leading_ws_cr. }
  destruct (is_blank l); [apply IH|]. rewrite Hlead by done.
  destruct (_ <? _)%nat; [done|apply IH].
Qed.

Lemma scan_lines_cr len rest rest' i :
  Forall2 cr_variant rest rest' →
  scan_lines len rest' i = scan_lines len rest i.
Proof.
  intros H. revert i.
  induction H as [|l l' rest rest' Hl Hrest IH]; intros i; simpl; [done|].
  assert (header_match l' = header_match l) as ->.
  { destruct Hl as [->| ->]; [done|apply header_match_cr]. }
  destruct (header_match l); [|apply IH].
  destruct (_ <=? _)%nat; [done|].
  rewrite (scan_block_cr _ rest rest') by done.
  destruct (_ <=? _)%nat; [done|apply IH].
Qed.

Lemma split_nl_to_crlf s :
  Forall2 cr_variant (split_nl s) (split_nl (to_crlf s)).
Proof.
  induction s as [|c s IH]; simpl.
  - repeat constructor.
  - destruct (N.eqb_spec c LF) as [->|Hc].
    + change (split_nl (CR :: LF :: to_crlf s))
        with ([CR] :: split_nl (to_crlf s)).
      constructor; [by right|done].
    + simpl. rewrite (proj2 (N.eqb_neq c LF)) by done.
      destruct IH as [|l l' ls ls' Hl Hls]; [repeat constructor|].
      constructor; [|done]. destruct Hl as [->| ->]; [by left|by right].
Qed.

(** X22: line ends do not matter to the detector: in a text whose line
    feeds are all preceded by a carriage return it finds the same region as
    in the text without the carriage returns. *)
Theorem X22_detect_crlf text :
  detectMQLRegion (to_crlf text) = detectMQLRegion text.
Proof.
  unfold detectMQLRegion.
  pose proof (split_nl_to_crlf text) as H.
  rewrite <- (Forall2_length _ _ _ H). by apply scan_lines_cr.
Qed.

(** ** Documents without a region *)

Lemma lookup_untracked u document st :
  untracked u st →
  (vscode.uri document = u →
   detectMQLRegion (vscode.getText document) = None) →
  let r := getEmbeddedMQLCachedDocumentData document st in
  untracked u r.1.2
  ∧ (vscode.uri document = u → region r.1.1 = None).
Proof.
  intros [Ho Hc] Hd.
  destruct (cache_hit (embeddedMQLDocumentCache st !! vscode.uri document)
              document) as [c|] eqn:E.
  - rewrite (getEmbedded_hit _ _ c) by done. simpl.
    split; [done|]. intros Hu. apply Hc. rewrite <- Hu.
    unfold cache_hit in E.
    destruct (embeddedMQLDocumentCache st !! vscode.uri document) as [c'|];
      [|done].
    destruct (version c' =? vscode.version document)%Z; [|done].
    by injection E as ->.
  - rewrite getEmbedded_miss by done. simpl. split; [|done].
    split; [done|]. intros c. simpl.
    destruct (decide (vscode.uri document = u)) as [Hu|Hne].
    + rewrite Hu, lookup_insert_eq. intros [= <-]. simpl. by apply Hd.
    + rewrite lookup_insert_ne by done. apply Hc.
Qed.

Lemma handle_untracked u ev st :
  untracked u st →
  (vscode.uri (event_document ev) = u →
   detectMQLRegion (vscode.getText (event_document ev)) = None) →
  untracked u (handle ev st).1.2
  ∧ Forall (λ c, sent_for u c = false) (handle ev st).2.
Proof.
  intros Hun Hd.
  destruct (lookup_untracked u (event_document ev) st Hun Hd) as [[Ho1 Hc1] Hr].
  pose proof Hun as [Ho Hc].
  assert (∀ r, region (getEmbeddedMQLCachedDocumentData (event_document ev) st).1.1
               = Some r → vscode.uri (event_document ev) ≠ u) as Hne.
  { intros r Hreg Hu. rewrite (Hr Hu) in Hreg. done. }
  destruct ev as [d|d|d]; simpl in *.
  - rewrite didOpen_eq. destruct (is_yaml d); simpl; [|by repeat constructor].
    case_bool_decide; [by repeat constructor|].
    destruct (region _) as [r|] eqn:Hreg; simpl; [|by repeat constructor].
    specialize (Hne r eq_refl).
    split; [split; [|done]|].
    + simpl. rewrite elem_of_union, elem_of_singleton.
      intros [Heq|Hin]; [by apply Hne|done].
    + repeat constructor. simpl. by rewrite bool_decide_eq_false_2.
  - rewrite didChange_eq. destruct (is_yaml d); simpl; [|by repeat constructor].
    case_bool_decide as Hin; simpl.
    + split; [done|]. repeat constructor. simpl.
      rewrite bool_decide_eq_false_2; [done|].
      intros Heq. apply Ho. by rewrite <- Heq.
    + destruct (region _) as [r|] eqn:Hreg; simpl; [|by repeat constructor].
      specialize (Hne r eq_refl).
      split; [split; [|done]|].
      * simpl. rewrite elem_of_union, elem_of_singleton.
        intros [Heq|Hin']; [by apply Hne|done].
      * repeat constructor. simpl. by rewrite bool_decide_eq_false_2.
  - rewrite didClose_eq. destruct (is_yaml d); simpl; [|by repeat constructor].
    split; [|by repeat constructor]. split; simpl.
    + rewrite elem_of_difference. tauto.
    + intros c [_ Hin]%lookup_delete_Some. by apply Hc.
Qed.

(** X23: a document in which no region is ever detected is never the
    subject of a notification the middleware sends itself: from a state
    where its identity is not open and has no cached region, and through any
    events (on this and on other documents) in which its text has no
    region, no [didOpen] and no [didChange] is sent for it. *)
Theorem X23_no_region_never_sent u evs st :
  untracked u st →
  Forall (λ ev, vscode.uri (event_document ev) = u →
                detectMQLRegion (vscode.getText (event_document ev)) = None)
    evs →
  Forall (λ c, sent_for u c = false) (concat (run evs st).2).
Proof.
  intros Hun Hevs. revert st Hun.
  induction Hevs as [|ev evs Hev _ IH]; intros st Hun; [constructor|].
  rewrite run_cons. simpl.
  destruct (handle_untracked u ev st Hun Hev) as [Hun1 Hout].
  apply Forall_app. split; [done|by apply IH].
Qed.

Lemma X23_no_region_never_sent_witness :
  let u := "file:///plain.yml"%string in
  let d := yaml_document u 1 (str "name: x") in
  let other := yaml_document "file:///rule.yml" 1 scenario_text in
  Forall (λ c, sent_for u c = false)
    (concat (run [HostOpen d; HostOpen other; HostChange d; HostClose d]
               empty_state).2).
Proof.
  intros u d other.
  apply (X23_no_region_never_sent u
           [HostOpen d; HostOpen other; HostChange d; HostClose d] empty_state).
  - split; [apply not_elem_of_empty|].
    intros c Hc. simpl in Hc. by rewrite lookup_empty in Hc.
  - repeat constructor; simpl; intros H; try discriminate;
      vm_compute; reflexivity.
Defined.

(** ** Header lines *)

(** X24: a line is a header exactly when it is whitespace, [source:],
    whitespace, a bar or a greater-than sign, at most one minus or plus
    sign, and whitespace up to its end; the indent the detector measures
    is that first run of whitespace. *)
Theorem X24_header_lines line m1 :
  header_match line = Some m1
  ↔ ∃ a ind chomp d,
      line = m1 ++ str "source:" ++ a ++ [ind] ++ chomp ++ d
      ∧ forallb is_space m1 = true
      ∧ forallb is_space a = true
      ∧ (ind = 124 ∨ ind = 62)
      ∧ (chomp = [] ∨ chomp = [45] ∨ chomp = [43])
      ∧ forallb is_space d = true.
Proof.
  rewrite header_match_regex. split.
  - intros (rest & -> & Hm1 & Hrest). apply ws_star_forallb in Hm1.
    unfold header_after_group in Hrest.
    inversion Hrest as [| |? ? k r1 Hk H1| | | |]; subst. inversion Hk; subst.
    inversion H1 as [| |? ? a r2 Ha H2| | | |]; subst.
    apply ws_star_forallb in Ha.
    inversion H2 as [| |? ? ci r3 Hci H3| | | |]; subst.
    inversion Hci as [? c Hc| | | | | |]; subst.
    inversion H3 as [| |? ? o d Ho Hd| | | |]; subst.
    apply ws_star_forallb in Hd.
    exists a, c, o, d. repeat split; try done.
    + unfold is_block_indicator in Hc. apply orb_true_iff in Hc.
      destruct Hc as [?%N.eqb_eq|?%N.eqb_eq]; [by left|by right].
    + inversion Ho as [| | | | |?|? ? Ho']; subst; [by left|].
      inversion Ho' as [? x Hx| | | | | |]; subst.
      unfold is_chomping in Hx. apply orb_true_iff in Hx.
      destruct Hx as [->%N.eqb_eq| ->%N.eqb_eq]; [right; by left|right; by right].
  - intros (a & ind & chomp & d & -> & Hm1 & Ha & Hind & Hch & Hd).
    exists (str "source:" ++ a ++ [ind] ++ chomp ++ d).
    split; [done|]. split; [by apply ws_star_forallb|].
    apply matches_cat; [constructor|].
    apply matches_cat; [by apply ws_star_forallb|].
    apply (matches_cat _ _ [ind]).
    { constructor. by destruct Hind as [->| ->]. }
    apply matches_cat; [|by apply ws_star_forallb].
    destruct Hch as [->|[->| ->]]; [constructor| |];
      by apply matches_opt_some; constructor.
Qed.

Lemma X24_header_lines_witness :
  header_match ([32; 32] ++ str "source:" ++ [32] ++ [62] ++ [45] ++ [13])
  = Some [32; 32].
Proof.
  apply (proj2 (X24_header_lines
                  ([32; 32] ++ str "source:" ++ [32] ++ [62] ++ [45] ++ [13])
                  [32; 32])).
  exists [32], 62, [45], [13].
  repeat split; try reflexivity; [by right|right; by left].
Defined.

(** ** The replacement text of the formatting edit *)

Lemma no_lf_strip_cr l : no_lf l → no_lf (vscode.strip_cr l).
Proof.
  unfold no_lf, vscode.strip_cr. intros Hl.
  destruct (rev l) as [|c l'] eqn:E; [done|].
  destruct (c =? CR); [|done].
  intros Hin. apply Hl. apply list_elem_of_In, in_rev. rewrite E.
  right. by apply in_rev, list_elem_of_In.
Qed.

Lemma no_lf_leading_ws l : no_lf l → no_lf (leading_ws l).
Proof.
  unfold no_lf. intros Hl Hin. apply Hl.
  rewrite (leading_skip_ws l). apply elem_of_app. by left.
Qed.

Lemma lineAt_no_lf document n l :
  vscode.lineAt document n = Some l → no_lf l.
Proof.
  unfold vscode.lineAt. destruct (n <? 0)%Z; [done|].
  intros (l0 & Hl0 & ->)%fmap_Some. apply no_lf_strip_cr.
  by apply (Forall_lookup_1 _ _ _ _ (split_nl_no_lf (vscode.getText document)) Hl0).
Qed.

(** X15: for a YAML document whose cached region is the region of its
    text, a one-edit answer always gives an edit (nothing is thrown); its
    text has as many lines as the service's text, a blank line of which
    becomes the empty string and any other line the same line behind the
    whitespace that starts the header line and two spaces. *)
Theorem X15_yaml_edit_text st document r edit i :
  is_yaml document = true →
  lookup_region document st = Some r →
  detectMQLRegion (vscode.getText document) = Some r →
  ∃ sourceLine e,
    vscode.lineAt document (Z.of_nat (startLine r) - 1) = Some sourceLine
    ∧ (provideDocumentFormattingEdits_resume document (Some [edit]) st).1.1
      = Returned (Some [e])
    ∧ length (split_nl (vscode.newText e))
      = length (split_nl (vscode.newText edit))
    ∧ split_nl (vscode.newText e) !! i
      = (λ line,
           if is_blank line then []
           else (leading_ws sourceLine ++ str "  ") ++ line)
        <$> split_nl (vscode.newText edit) !! i.
Proof.
  intros Hy Hr Hd.
  destruct (detectMQLRegion_bounds _ _ Hd) as (H1 & Hle & Hn).
  destruct (lookup_lt_is_Some_2 (split_nl (vscode.getText document))
              (startLine r - 1)) as [l0 Hl0]; [lia|].
  destruct (lookup_lt_is_Some_2 _ _ Hn) as [l1 Hl1].
  assert (vscode.lineAt document (Z.of_nat (startLine r) - 1)
          = Some (vscode.strip_cr l0)) as Hs.
  { unfold vscode.lineAt.
    destruct (Z.ltb_spec (Z.of_nat (startLine r) - 1) 0); [lia|].
    replace (Z.to_nat (Z.of_nat (startLine r) - 1)) with (startLine r - 1)%nat
      by lia.
    by rewrite Hl0. }
  assert (vscode.lineAt document (Z.of_nat (endLine r))
          = Some (vscode.strip_cr l1)) as He.
  { unfold vscode.lineAt.
    destruct (Z.ltb_spec (Z.of_nat (endLine r)) 0); [lia|].
    by rewrite Nat2Z.id, Hl1. }
  eexists (vscode.strip_cr l0), _. split; [done|].
  rewrite resume_single_edit by done. rewrite Hr, Hs, He.
  split; [done|]. cbn [vscode.newText].
  assert (no_lf (leading_ws (vscode.strip_cr l0) ++ str "  ")) as Hb.
  { apply no_lf_app.
    - apply no_lf_leading_ws. by apply (lineAt_no_lf document _ _ Hs).
    - unfold no_lf. vm_compute. intros H.
      repeat (apply elem_of_cons in H as [H|H]; [discriminate|]).
      by apply elem_of_nil in H. }
  unfold reindent. change (List.map ?f ?l) with (f <$> l).
  rewrite split_join.
  - by rewrite length_fmap, list_lookup_fmap.
  - pose proof (split_nl_nonempty (vscode.newText edit)).
    by destruct (split_nl (vscode.newText edit)).
  - apply Forall_fmap. eapply Forall_impl; [apply split_nl_no_lf|].
    intros l Hl. simpl. destruct (is_blank l); [apply not_elem_of_nil|].
    by apply no_lf_app.
Qed.

Lemma X15_yaml_edit_text_witness :
  let d := yaml_document "file:///rule.yml" 1 indented_block in
  let edit := {| vscode.range := whole_document;
                 vscode.newText := [97; LF; LF; 98] |} in
  ∃ sourceLine e,
    vscode.lineAt d (Z.of_nat 2 - 1) = Some sourceLine
    ∧ (provideDocumentFormattingEdits_resume d (Some [edit]) empty_state).1.1
      = Returned (Some [e])
    ∧ length (split_nl (vscode.newText e))
      = length (split_nl (vscode.newText edit))
    ∧ split_nl (vscode.newText e) !! 1%nat
      = (λ line,
           if is_blank line then []
           else (leading_ws sourceLine ++ str "  ") ++ line)
        <$> split_nl (vscode.newText edit) !! 1%nat.
Proof.
  intros d edit.
  apply (X15_yaml_edit_text empty_state d {| startLine := 2; endLine := 2 |}
           edit 1).
  - reflexivity.
  - vm_compute; reflexivity.
  - vm_compute; reflexivity.
Defined.

(** ** Restart *)

(** X25: after [cleanupEmbeddedMQL] and [setupEmbeddedMQL], whatever the
    state was before, the module is as new: through any host events every
    text sent is a masked text, every [didOpen] names the language id given
    to the setup, and the notifications are accepted in order by a service
    that holds no document open. *)
Theorem X25_restart st mqlLanguageID evs :
  let st0 := (setupEmbeddedMQL mqlLanguageID (cleanupEmbeddedMQL st).1.2).1.2 in
  Forall (masked_payload mqlLanguageID) (concat (run evs st0).2)
  ∧ service_run ∅ (concat (run evs st0).2)
    = Some (embeddedMQLOpenedYAMLDocuments (run evs st0).1).
Proof.
  intros st0. split.
  - apply (run_payload evs st0).
    intros u c Hc. simpl in Hc. by rewrite lookup_empty in Hc.
  - apply (run_service evs st0).
Qed.
